(** * AutoNotes: the trigger-condition matcher and the note store

    A shallow embedding of [autonotes.py]: the dataclasses, the matcher
    ([_check_trigger_condition], [get_notes_for_display]), the store
    ([_load_notes], [_save_notes], the mutations) and the folder-deletion
    route, followed by the properties of the specification.

    Conventions of the embedding.
    - Dataclass fields are taken at their declared types (the annotations).
      Python does not enforce them; where a run would store a value outside
      the annotation the model stops with [Untyped] instead of inventing a
      behaviour.
    - Values typed [Any] (what [json.loads] returns) are [pyval]s and keep
      Python's dynamic behaviour, exceptions included.
    - A [dict] is an association list in insertion order with distinct keys.
    - A file holds a JSON document, not its text: [json.dump] followed by
      [json.load] is taken to return the document it was given.
    - [uuid.uuid4()] and the result of a file write are inputs of the
      operation that performs them. *)

From Stdlib Require Import List String Ascii ZArith Bool DecimalString.
From Stdlib Require Import Lia.
Import ListNotations.
Local Open Scope list_scope.
Local Open Scope string_scope.
Set Warnings "-register-all".

(* ================================================================= *)
(** ** Python values *)

(** The exceptions this program can meet. *)
Inductive exn : Type :=
| TypeError
| AttributeError
| KeyError
| OSError.

(** The result of running a piece of Python. *)
Inductive outcome (A : Type) : Type :=
| Ok (a : A)          (* normal return *)
| Raise (e : exn)     (* an exception propagates *)
| Untyped.            (* a field would receive a value outside its annotation *)

Arguments Ok {A} a.
Arguments Raise {A} e.
Arguments Untyped {A}.

Definition bind {A B : Type} (c : outcome A) (k : A -> outcome B) : outcome B :=
  match c with
  | Ok a => k a
  | Raise e => Raise e
  | Untyped => Untyped
  end.

Declare Scope py_scope.
Delimit Scope py_scope with py.
Notation "x <- c ;; k" := (bind c (fun x => k))
  (at level 61, c at next level, right associativity) : py_scope.
Local Open Scope py_scope.

(** [try: c except Exception: handler]. *)
Definition try_except {A : Type} (c : outcome A) (handler : A) : outcome A :=
  match c with
  | Raise _ => Ok handler
  | other => other
  end.

(** A [dict] with [str] keys, in insertion order. *)
Definition dict (A : Type) : Type := list (string * A).

Fixpoint dict_get {A : Type} (k : string) (d : dict A) : option A :=
  match d with
  | [] => None
  | (k', v) :: rest => if (k' =? k)%string then Some v else dict_get k rest
  end.

(** [k in d] *)
Definition dict_contains {A : Type} (k : string) (d : dict A) : bool :=
  match dict_get k d with Some _ => true | None => false end.

(** [d[k] = v]: an existing key keeps its place, a new one goes last. *)
Fixpoint dict_setitem {A : Type} (k : string) (v : A) (d : dict A) : dict A :=
  match d with
  | [] => [(k, v)]
  | (k', v') :: rest =>
      if (k' =? k)%string then (k, v) :: rest
      else (k', v') :: dict_setitem k v rest
  end.

(** [del d[k]] *)
Fixpoint dict_delitem {A : Type} (k : string) (d : dict A) : dict A :=
  match d with
  | [] => []
  | (k', v') :: rest =>
      if (k' =? k)%string then rest else (k', v') :: dict_delitem k rest
  end.

Definition dict_keys {A : Type} (d : dict A) : list string := map fst d.
Definition dict_values {A : Type} (d : dict A) : list A := map snd d.

(** What [json.loads] produces.  A float is carried by the text [repr]
    gives it: printing is all this program does with one. *)
Inductive pyval : Type :=
| PNone
| PBool (b : bool)
| PInt (z : Z)
| PFloat (repr : string)
| PStr (s : string)
| PList (items : list pyval)
| PDict (items : list (string * pyval)).

(** [sub in s] for two [str]: [sub] occurs in [s] as a contiguous run. *)
Fixpoint py_in_str (sub s : string) : bool :=
  prefix sub s ||
  match s with
  | EmptyString => false
  | String _ rest => py_in_str sub rest
  end.

(** *** [repr] and [str] *)

Definition dquote : ascii := "034"%char.
Definition squote : ascii := "039"%char.
Definition backslash : ascii := "092"%char.

Fixpoint str_has (c : ascii) (s : string) : bool :=
  match s with
  | EmptyString => false
  | String c' rest => (c' =? c)%char || str_has c rest
  end.

Definition hex_digit (n : nat) : ascii :=
  nth n (list_ascii_of_string "0123456789abcdef") "0"%char.

Definition repr_char (quote c : ascii) : string :=
  let n := nat_of_ascii c in
  if (c =? quote)%char || (c =? backslash)%char then String backslash (String c EmptyString)
  else if (n =? 9)%nat then String backslash "t"
  else if (n =? 10)%nat then String backslash "n"
  else if (n =? 13)%nat then String backslash "r"
  else if (n <? 32)%nat || (n =? 127)%nat then
    String backslash (String "x" (String (hex_digit (n / 16)) (String (hex_digit (n mod 16)) EmptyString)))
  else String c EmptyString.

Fixpoint repr_chars (quote : ascii) (s : string) : string :=
  match s with
  | EmptyString => EmptyString
  | String c rest => repr_char quote c ++ repr_chars quote rest
  end.

(** [repr] of a [str]: single quotes unless the text has one and no double
    quote.  Bytes above 127 are copied, as [repr] does for printable
    characters. *)
Definition repr_str (s : string) : string :=
  let quote := if str_has squote s && negb (str_has dquote s) then dquote else squote in
  String quote (repr_chars quote s ++ String quote EmptyString).

Fixpoint join (sep : string) (parts : list string) : string :=
  match parts with
  | [] => EmptyString
  | [p] => p
  | p :: rest => p ++ sep ++ join sep rest
  end.

Fixpoint py_repr (v : pyval) : string :=
  match v with
  | PNone => "None"
  | PBool true => "True"
  | PBool false => "False"
  | PInt z => NilZero.string_of_int (Z.to_int z)
  | PFloat r => r
  | PStr s => repr_str s
  | PList items => "[" ++ join ", " (map py_repr items) ++ "]"
  | PDict items =>
      "{" ++ join ", " (map (fun kv => repr_str (fst kv) ++ ": " ++ py_repr (snd kv)) items) ++ "}"
  end.

(** [str(v)] *)
Definition py_str (v : pyval) : string :=
  match v with
  | PStr s => s
  | other => py_repr other
  end.

(** [name in v] for a [str] on the left and any value on the right. *)
Definition py_contains (name : string) (v : pyval) : outcome bool :=
  match v with
  | PDict items => Ok (dict_contains name items)
  | PList items =>
      Ok (existsb (fun item => match item with PStr s => (s =? name)%string | _ => false end) items)
  | PStr s => Ok (py_in_str name s)
  | PNone | PBool _ | PInt _ | PFloat _ => Raise TypeError
  end.

(** [v[name]] for a [str] subscript. *)
Definition py_getitem (v : pyval) (name : string) : outcome pyval :=
  match v with
  | PDict items =>
      match dict_get name items with
      | Some x => Ok x
      | None => Raise KeyError
      end
  | _ => Raise TypeError
  end.

(* ================================================================= *)
(** ** The dataclasses *)

Module TriggerCondition.
Record t : Type := mk {
  type : string;
  node_types : option (list string);
  node_type : option string;
  attribute_name : option string;
  attribute_values : option (list string);
  workflow_names : option (list string)
}.
End TriggerCondition.

Module Note.
Record t : Type := mk {
  uuid : string;
  folder_uuid : option string;
  content : string;
  format_style : string;
  trigger_conditions : list TriggerCondition.t;
  pinned : bool;
  name : string;
  tags : list string
}.
End Note.

Module Folder.
Record t : Type := mk {
  uuid : string;
  parent_uuid : option string;
  name : string
}.
End Folder.

Module AutoNotesManager.
Record t : Type := mk {
  notes : dict Note.t;
  folders : dict Folder.t
}.
End AutoNotesManager.

(* ================================================================= *)
(** ** The matcher *)

(** [a == b] on two [Optional[str]]; [None == None] holds. *)
Definition opt_str_eqb (a b : option string) : bool :=
  match a, b with
  | Some x, Some y => (x =? y)%string
  | None, None => true
  | _, _ => false
  end.

(** [x in xs] for a list of [str]. *)
Definition str_in_list (x : string) (xs : list string) : bool :=
  existsb (String.eqb x) xs.

(** [any(val in text for val in values)] *)
Definition any_in (values : list string) (text : string) : bool :=
  existsb (fun val => py_in_str val text) values.

Definition _check_trigger_condition
    (condition : TriggerCondition.t)
    (selected_node_type : option string)
    (selected_node_attributes : option (dict pyval))
    (workflow_name : option string)
    (workflow_nodes : option (dict pyval)) : outcome bool :=
  let kind := TriggerCondition.type condition in
  if kind =? "node_selected" then
    match selected_node_type, TriggerCondition.node_types condition with
    | Some selected, Some node_types => Ok (str_in_list selected node_types)
    | _, _ => Ok false
    end
  else if kind =? "node_selected_attribute" then
    if opt_str_eqb selected_node_type (TriggerCondition.node_type condition) then
      match selected_node_attributes with
      | None => Ok false
      | Some attributes =>
          (* [condition.attribute_name in selected_node_attributes]:
             [None] is not a key of a dict with [str] keys *)
          match TriggerCondition.attribute_name condition with
          | None => Ok false
          | Some attribute_name =>
              match dict_get attribute_name attributes,
                    TriggerCondition.attribute_values condition with
              | Some value, Some attribute_values =>
                  let attr_value := py_str value in
                  Ok (any_in attribute_values attr_value)
              | _, _ => Ok false
              end
          end
      end
    else Ok false
  else if kind =? "node_in_workflow" then
    match workflow_nodes, TriggerCondition.node_types condition with
    | Some nodes, Some node_types =>
        Ok (existsb (fun node_type => dict_contains node_type nodes) node_types)
    | _, _ => Ok false
    end
  else if kind =? "node_in_workflow_attribute" then
    match workflow_nodes,
          TriggerCondition.node_type condition,
          TriggerCondition.attribute_name condition with
    | Some nodes, Some node_type, Some attribute_name =>
        match dict_get node_type nodes with
        | None => Ok false
        | Some node_attrs =>
            present <- py_contains attribute_name node_attrs ;;
            if present then
              (* [attribute_values is not None and len(attribute_values) > 0] *)
              match TriggerCondition.attribute_values condition with
              | Some (val :: vals) =>
                  value <- py_getitem node_attrs attribute_name ;;
                  let attr_value := py_str value in
                  Ok (any_in (val :: vals) attr_value)
              | _ => Ok true
              end
            else Ok false
        end
    | _, _, _ => Ok false
    end
  else if kind =? "workflow_name" then
    match workflow_name, TriggerCondition.workflow_names condition with
    | Some name, Some workflow_names => Ok (any_in workflow_names name)
    | _, _ => Ok false
    end
  else Ok false.

(** The inner loop of [get_notes_for_display]: stop at the first
    condition that holds. *)
Fixpoint first_match
    (conditions : list TriggerCondition.t)
    (selected_node_type : option string)
    (selected_node_attributes : option (dict pyval))
    (workflow_name : option string)
    (workflow_nodes : option (dict pyval)) : outcome bool :=
  match conditions with
  | [] => Ok false
  | condition :: rest =>
      hit <- _check_trigger_condition condition selected_node_type
               selected_node_attributes workflow_name workflow_nodes ;;
      if hit then Ok true
      else first_match rest selected_node_type selected_node_attributes
             workflow_name workflow_nodes
  end.

(** The outer loop: [matching_notes] grows at its end. *)
Fixpoint matching_loop
    (notes : list Note.t)
    (matching_notes : list Note.t)
    (selected_node_type : option string)
    (selected_node_attributes : option (dict pyval))
    (workflow_name : option string)
    (workflow_nodes : option (dict pyval)) : outcome (list Note.t) :=
  match notes with
  | [] => Ok matching_notes
  | note :: rest =>
      if Note.pinned note then
        matching_loop rest (matching_notes ++ [note])%list selected_node_type
          selected_node_attributes workflow_name workflow_nodes
      else
        hit <- first_match (Note.trigger_conditions note) selected_node_type
                 selected_node_attributes workflow_name workflow_nodes ;;
        matching_loop rest
          (if hit then (matching_notes ++ [note])%list else matching_notes)
          selected_node_type selected_node_attributes workflow_name workflow_nodes
  end.

Definition get_notes_for_display
    (self : AutoNotesManager.t)
    (mode : string)
    (selected_node_type : option string)
    (selected_node_attributes : option (dict pyval))
    (workflow_name : option string)
    (workflow_nodes : option (dict pyval)) : outcome (list Note.t) :=
  if mode =? "all" then Ok (dict_values (AutoNotesManager.notes self))
  else matching_loop (dict_values (AutoNotesManager.notes self)) []
         selected_node_type selected_node_attributes workflow_name workflow_nodes.

(* ================================================================= *)
(** ** Records to JSON and back *)

Definition json_opt_str (o : option string) : pyval :=
  match o with Some s => PStr s | None => PNone end.

Definition json_str_list (l : list string) : pyval := PList (map PStr l).

Definition json_opt_str_list (o : option (list string)) : pyval :=
  match o with Some l => json_str_list l | None => PNone end.

(** [asdict(tc)] *)
Definition asdict_TriggerCondition (tc : TriggerCondition.t) : dict pyval :=
  [ ("type", PStr (TriggerCondition.type tc));
    ("node_types", json_opt_str_list (TriggerCondition.node_types tc));
    ("node_type", json_opt_str (TriggerCondition.node_type tc));
    ("attribute_name", json_opt_str (TriggerCondition.attribute_name tc));
    ("attribute_values", json_opt_str_list (TriggerCondition.attribute_values tc));
    ("workflow_names", json_opt_str_list (TriggerCondition.workflow_names tc)) ].

(** [asdict(note)]; it descends into the conditions. *)
Definition asdict_Note (note : Note.t) : dict pyval :=
  [ ("uuid", PStr (Note.uuid note));
    ("folder_uuid", json_opt_str (Note.folder_uuid note));
    ("content", PStr (Note.content note));
    ("format_style", PStr (Note.format_style note));
    ("trigger_conditions",
       PList (map (fun tc => PDict (asdict_TriggerCondition tc)) (Note.trigger_conditions note)));
    ("pinned", PBool (Note.pinned note));
    ("name", PStr (Note.name note));
    ("tags", json_str_list (Note.tags note)) ].

(** [asdict(folder)] *)
Definition asdict_Folder (folder : Folder.t) : dict pyval :=
  [ ("uuid", PStr (Folder.uuid folder));
    ("parent_uuid", json_opt_str (Folder.parent_uuid folder));
    ("name", PStr (Folder.name folder)) ].

(** Reading a JSON value at a declared type. *)
Definition as_str (v : pyval) : outcome string :=
  match v with PStr s => Ok s | _ => Untyped end.

Definition as_opt_str (v : pyval) : outcome (option string) :=
  match v with PNone => Ok None | PStr s => Ok (Some s) | _ => Untyped end.

Definition as_bool (v : pyval) : outcome bool :=
  match v with PBool b => Ok b | _ => Untyped end.

Fixpoint as_strs (items : list pyval) : outcome (list string) :=
  match items with
  | [] => Ok []
  | item :: rest => s <- as_str item ;; l <- as_strs rest ;; Ok (s :: l)
  end.

Definition as_str_list (v : pyval) : outcome (list string) :=
  match v with PList items => as_strs items | _ => Untyped end.

Definition as_opt_str_list (v : pyval) : outcome (option (list string)) :=
  match v with
  | PNone => Ok None
  | PList items => l <- as_strs items ;; Ok (Some l)
  | _ => Untyped
  end.

(** [tags: List[str] = None], with [__post_init__] turning [None] into []. *)
Definition as_tags (v : pyval) : outcome (list string) :=
  match v with PNone => Ok [] | other => as_str_list other end.

Definition TriggerCondition_fields : list string :=
  ["type"; "node_types"; "node_type"; "attribute_name"; "attribute_values"; "workflow_names"].

Definition Note_fields : list string :=
  ["uuid"; "folder_uuid"; "content"; "format_style"; "trigger_conditions"; "pinned"; "name"; "tags"].

Definition Folder_fields : list string := ["uuid"; "parent_uuid"; "name"].

(** A dataclass constructor called with [**kwargs] raises [TypeError] on a
    keyword that is not a field and on a missing field without default. *)
Definition accepts_kwargs {A : Type} (fields required : list string) (kwargs : dict A) : bool :=
  forallb (fun k => str_in_list k fields) (dict_keys kwargs) &&
  forallb (fun k => dict_contains k kwargs) required.

(** The keyword's value at its declared type, or the field's default. *)
Definition keyword {A : Type} (kwargs : dict pyval) (name : string)
    (read : pyval -> outcome A) (default : A) : outcome A :=
  match dict_get name kwargs with
  | Some v => read v
  | None => Ok default
  end.

(** [TriggerCondition] called with the keywords [**tc_data]. *)
Definition new_TriggerCondition (tc_data : pyval) : outcome TriggerCondition.t :=
  match tc_data with
  | PDict kwargs =>
      if accepts_kwargs TriggerCondition_fields ["type"] kwargs then
        type <- keyword kwargs "type" as_str EmptyString ;;
        node_types <- keyword kwargs "node_types" as_opt_str_list None ;;
        node_type <- keyword kwargs "node_type" as_opt_str None ;;
        attribute_name <- keyword kwargs "attribute_name" as_opt_str None ;;
        attribute_values <- keyword kwargs "attribute_values" as_opt_str_list None ;;
        workflow_names <- keyword kwargs "workflow_names" as_opt_str_list None ;;
        Ok (TriggerCondition.mk type node_types node_type attribute_name
              attribute_values workflow_names)
      else Raise TypeError
  | _ => Raise TypeError
  end.

(** [Note] called with the keywords [**note_data], once
    [note_data['trigger_conditions']] holds the converted conditions. *)
Definition new_Note (note_data : dict pyval) (trigger_conditions : list TriggerCondition.t)
    : outcome Note.t :=
  if accepts_kwargs Note_fields ["uuid"; "folder_uuid"; "content"; "format_style"]
       (dict_setitem "trigger_conditions" PNone note_data) then
    uuid <- keyword note_data "uuid" as_str EmptyString ;;
    folder_uuid <- keyword note_data "folder_uuid" as_opt_str None ;;
    content <- keyword note_data "content" as_str EmptyString ;;
    format_style <- keyword note_data "format_style" as_str EmptyString ;;
    pinned <- keyword note_data "pinned" as_bool false ;;
    name <- keyword note_data "name" as_str EmptyString ;;
    tags <- keyword note_data "tags" as_tags [] ;;
    Ok (Note.mk uuid folder_uuid content format_style trigger_conditions pinned name tags)
  else Raise TypeError.

(** [Folder] called with the keywords [**folder_data]. *)
Definition new_Folder (folder_data : pyval) : outcome Folder.t :=
  match folder_data with
  | PDict kwargs =>
      if accepts_kwargs Folder_fields Folder_fields kwargs then
        uuid <- keyword kwargs "uuid" as_str EmptyString ;;
        parent_uuid <- keyword kwargs "parent_uuid" as_opt_str None ;;
        name <- keyword kwargs "name" as_str EmptyString ;;
        Ok (Folder.mk uuid parent_uuid name)
      else Raise TypeError
  | _ => Raise TypeError
  end.

(** [for x in v]: the items Python iterates over. *)
Fixpoint chars (s : string) : list pyval :=
  match s with
  | EmptyString => []
  | String c rest => PStr (String c EmptyString) :: chars rest
  end.

Definition py_iter (v : pyval) : outcome (list pyval) :=
  match v with
  | PList items => Ok items
  | PDict items => Ok (map (fun kv => PStr (fst kv)) items)
  | PStr s => Ok (chars s)
  | PNone | PBool _ | PInt _ | PFloat _ => Raise TypeError
  end.

(* ================================================================= *)
(** ** The store *)

(** What a path of the data directory holds. *)
Inductive file : Type :=
| Absent                      (* [os.path.exists] is false *)
| Unparsable                  (* text that [json.load] rejects *)
| Document (data : pyval).    (* the text of a JSON document *)

(** One user's data directory. *)
Record disk : Type := mkdisk {
  notes_file : file;
  folders_file : file
}.

(** What the file system does with one [open(path, 'w')] and [json.dump]. *)
Inductive write_result : Type :=
| Written                     (* the snapshot replaces the file *)
| Failed (remains : file).    (* [OSError]; the path holds [remains] afterwards *)

(** Code that runs against the disk: the outcome and the disk it leaves. *)
Definition io (A : Type) : Type := disk -> outcome A * disk.

Definition ret {A : Type} (a : A) : io A := fun d => (Ok a, d).

Definition lift {A : Type} (c : outcome A) : io A := fun d => (c, d).

Definition io_bind {A B : Type} (c : io A) (k : A -> io B) : io B :=
  fun d =>
    match c d with
    | (Ok a, d') => k a d'
    | (Raise e, d') => (Raise e, d')
    | (Untyped, d') => (Untyped, d')
    end.

(** [try: c except Exception: handler] *)
Definition io_try {A : Type} (c : io A) (handler : io A) : io A :=
  fun d =>
    match c d with
    | (Raise _, d') => handler d'
    | other => other
    end.

Declare Scope io_scope.
Delimit Scope io_scope with io.
Notation "x <- c ;; k" := (io_bind c (fun x => k))
  (at level 61, c at next level, right associativity) : io_scope.
Notation "c ;; k" := (io_bind c (fun _ => k))
  (at level 61, right associativity) : io_scope.

Definition dump_notes_file (w : write_result) (data : pyval) : io unit :=
  fun d =>
    match w with
    | Written => (Ok tt, mkdisk (Document data) (folders_file d))
    | Failed remains => (Raise OSError, mkdisk remains (folders_file d))
    end.

Definition dump_folders_file (w : write_result) (data : pyval) : io unit :=
  fun d =>
    match w with
    | Written => (Ok tt, mkdisk (notes_file d) (Document data))
    | Failed remains => (Raise OSError, mkdisk (notes_file d) remains)
    end.

(** *** Loading *)

Fixpoint load_conditions (items : list pyval) : outcome (list TriggerCondition.t) :=
  match items with
  | [] => Ok []
  | tc_data :: rest =>
      tc <- new_TriggerCondition tc_data ;;
      trigger_conditions <- load_conditions rest ;;
      Ok (tc :: trigger_conditions)
  end.

(** The body of the loop of [_load_notes]. *)
Definition load_note (note_data : pyval) : outcome Note.t :=
  match note_data with
  | PDict fields =>
      (* [note_data.get('trigger_conditions', [])] *)
      items <- py_iter (match dict_get "trigger_conditions" fields with
                        | Some v => v
                        | None => PList []
                        end) ;;
      trigger_conditions <- load_conditions items ;;
      new_Note fields trigger_conditions
  | _ => Raise AttributeError
  end.

Fixpoint load_notes_loop (data : list pyval) (notes : dict Note.t) : outcome (dict Note.t) :=
  match data with
  | [] => Ok notes
  | note_data :: rest =>
      note <- load_note note_data ;;
      load_notes_loop rest (dict_setitem (Note.uuid note) note notes)
  end.

Definition _load_notes (f : file) : outcome (dict Note.t) :=
  match f with
  | Absent => Ok []
  | Unparsable => Ok []
  | Document data =>
      try_except (items <- py_iter data ;; load_notes_loop items []) []
  end.

Fixpoint load_folders_loop (data : list pyval) (folders : dict Folder.t)
    : outcome (dict Folder.t) :=
  match data with
  | [] => Ok folders
  | folder_data :: rest =>
      folder <- new_Folder folder_data ;;
      load_folders_loop rest (dict_setitem (Folder.uuid folder) folder folders)
  end.

Definition _load_folders (f : file) : outcome (dict Folder.t) :=
  match f with
  | Absent => Ok []
  | Unparsable => Ok []
  | Document data =>
      try_except (items <- py_iter data ;; load_folders_loop items []) []
  end.

(** [AutoNotesManager(user)]: both collections are read from the user's
    directory. *)
Definition AutoNotesManager_init : io AutoNotesManager.t :=
  fun d =>
    (notes <- _load_notes (notes_file d) ;;
     folders <- _load_folders (folders_file d) ;;
     Ok (AutoNotesManager.mk notes folders), d).

(** *** Saving *)

Definition notes_snapshot (self : AutoNotesManager.t) : pyval :=
  PList (map (fun note =>
                let note_dict := asdict_Note note in
                PDict (dict_setitem "trigger_conditions"
                         (PList (map (fun tc => PDict (asdict_TriggerCondition tc))
                                   (Note.trigger_conditions note)))
                         note_dict))
           (dict_values (AutoNotesManager.notes self))).

Definition folders_snapshot (self : AutoNotesManager.t) : pyval :=
  PList (map (fun folder => PDict (asdict_Folder folder))
           (dict_values (AutoNotesManager.folders self))).

Definition _save_notes (self : AutoNotesManager.t) (w : write_result) : io unit :=
  io_try (dump_notes_file w (notes_snapshot self)) (ret tt).

Definition _save_folders (self : AutoNotesManager.t) (w : write_result) : io unit :=
  io_try (dump_folders_file w (folders_snapshot self)) (ret tt).

(** *** Mutations *)

(** [create_note]; [note_uuid] is the value [uuid.uuid4()] returns. *)
Definition create_note (self : AutoNotesManager.t) (note_uuid : string)
    (name : string) (folder_uuid : option string) (w : write_result)
    : io (string * AutoNotesManager.t) :=
  let note := Note.mk note_uuid folder_uuid EmptyString "plaintext" [] false name [] in
  let self' := AutoNotesManager.mk
                 (dict_setitem note_uuid note (AutoNotesManager.notes self))
                 (AutoNotesManager.folders self) in
  (_save_notes self' w ;; ret (note_uuid, self'))%io.

(** An object bound to a keyword of [update_note]: a JSON value, or the
    list of conditions the route builds from one. *)
Inductive pyobj : Type :=
| Value (v : pyval)
| Conditions (tcs : list TriggerCondition.t).

(** The names [hasattr] finds on every [Note] through its class, besides
    the fields (CPython 3.11). *)
Definition Note_class_attrs : list string :=
  ["__annotations__"; "__class__"; "__dataclass_fields__"; "__dataclass_params__";
   "__delattr__"; "__dict__"; "__dir__"; "__doc__"; "__eq__"; "__format__"; "__ge__";
   "__getattribute__"; "__getstate__"; "__gt__"; "__hash__"; "__init__";
   "__init_subclass__"; "__le__"; "__lt__"; "__match_args__"; "__module__"; "__ne__";
   "__new__"; "__post_init__"; "__reduce__"; "__reduce_ex__"; "__repr__";
   "__setattr__"; "__sizeof__"; "__str__"; "__subclasshook__"; "__weakref__"].

(** [hasattr(note, key)] *)
Definition hasattr_Note (key : string) : bool :=
  str_in_list key Note_fields || str_in_list key Note_class_attrs.

Definition obj_as {A : Type} (read : pyval -> outcome A) (value : pyobj) : outcome A :=
  match value with
  | Value v => read v
  | Conditions _ => Untyped
  end.

Definition obj_as_conditions (value : pyobj) : outcome (list TriggerCondition.t) :=
  match value with
  | Conditions tcs => Ok tcs
  | Value (PList []) => Ok []
  | Value _ => Untyped
  end.

(** [setattr(note, key, value)] where [hasattr(note, key)] holds.  A field
    takes a value of its declared type.  [__class__] accepts classes only,
    which no JSON value is.  The other inherited names are left to
    [Untyped]: most of them would become attributes of the instance, which
    the record has no place for. *)
Definition setattr_Note (note : Note.t) (key : string) (value : pyobj) : outcome Note.t :=
  let '(Note.mk uuid folder_uuid content format_style trigger_conditions pinned name tags) :=
    note in
  if key =? "uuid" then
    x <- obj_as as_str value ;;
    Ok (Note.mk x folder_uuid content format_style trigger_conditions pinned name tags)
  else if key =? "folder_uuid" then
    x <- obj_as as_opt_str value ;;
    Ok (Note.mk uuid x content format_style trigger_conditions pinned name tags)
  else if key =? "content" then
    x <- obj_as as_str value ;;
    Ok (Note.mk uuid folder_uuid x format_style trigger_conditions pinned name tags)
  else if key =? "format_style" then
    x <- obj_as as_str value ;;
    Ok (Note.mk uuid folder_uuid content x trigger_conditions pinned name tags)
  else if key =? "trigger_conditions" then
    x <- obj_as_conditions value ;;
    Ok (Note.mk uuid folder_uuid content format_style x pinned name tags)
  else if key =? "pinned" then
    x <- obj_as as_bool value ;;
    Ok (Note.mk uuid folder_uuid content format_style trigger_conditions x name tags)
  else if key =? "name" then
    x <- obj_as as_str value ;;
    Ok (Note.mk uuid folder_uuid content format_style trigger_conditions pinned x tags)
  else if key =? "tags" then
    x <- obj_as as_str_list value ;;
    Ok (Note.mk uuid folder_uuid content format_style trigger_conditions pinned name x)
  else if key =? "__class__" then Raise TypeError
  else Untyped.

(** The loop of [update_note] over [kwargs.items()]. *)
Fixpoint apply_kwargs (note : Note.t) (kwargs : dict pyobj) : outcome Note.t :=
  match kwargs with
  | [] => Ok note
  | (key, value) :: rest =>
      if hasattr_Note key then
        note' <- setattr_Note note key value ;;
        apply_kwargs note' rest
      else apply_kwargs note rest
  end.

Definition update_note (self : AutoNotesManager.t) (note_uuid : string)
    (kwargs : dict pyobj) (w : write_result) : io (bool * AutoNotesManager.t) :=
  match dict_get note_uuid (AutoNotesManager.notes self) with
  | None => ret (false, self)
  | Some note =>
      (note' <- lift (apply_kwargs note kwargs) ;;
       let self' := AutoNotesManager.mk
                      (dict_setitem note_uuid note' (AutoNotesManager.notes self))
                      (AutoNotesManager.folders self) in
       _save_notes self' w ;;
       ret (true, self'))%io
  end.

Definition delete_note (self : AutoNotesManager.t) (note_uuid : string)
    (w : write_result) : io (bool * AutoNotesManager.t) :=
  if dict_contains note_uuid (AutoNotesManager.notes self) then
    let self' := AutoNotesManager.mk
                   (dict_delitem note_uuid (AutoNotesManager.notes self))
                   (AutoNotesManager.folders self) in
    (_save_notes self' w ;; ret (true, self'))%io
  else ret (false, self).

(** [create_folder]; [folder_uuid] is the value [uuid.uuid4()] returns. *)
Definition create_folder (self : AutoNotesManager.t) (folder_uuid : string)
    (name : string) (parent_uuid : option string) (w : write_result)
    : io (string * AutoNotesManager.t) :=
  let folder := Folder.mk folder_uuid parent_uuid name in
  let self' := AutoNotesManager.mk
                 (AutoNotesManager.notes self)
                 (dict_setitem folder_uuid folder (AutoNotesManager.folders self)) in
  (_save_folders self' w ;; ret (folder_uuid, self'))%io.

(** *** The route [DELETE /autonotes/folders/{folder_uuid}] *)

(** [web.json_response]: the status and the [success] member of the body. *)
Record response : Type := json_response {
  status : nat;
  success : option bool
}.

(** [note.folder_uuid = None] for a note filed under [folder_uuid]. *)
Definition unfile (folder_uuid : string) (note : Note.t) : Note.t :=
  if opt_str_eqb (Note.folder_uuid note) (Some folder_uuid) then
    Note.mk (Note.uuid note) None (Note.content note) (Note.format_style note)
      (Note.trigger_conditions note) (Note.pinned note) (Note.name note) (Note.tags note)
  else note.

Definition delete_folder (folder_uuid : string) (w_notes w_folders : write_result)
    : io response :=
  io_try
    (manager <- AutoNotesManager_init ;;
     if negb (dict_contains folder_uuid (AutoNotesManager.folders manager)) then
       ret (json_response 404 (Some false))
     else
       let manager1 :=
         AutoNotesManager.mk
           (map (fun entry => (fst entry, unfile folder_uuid (snd entry)))
              (AutoNotesManager.notes manager))
           (AutoNotesManager.folders manager) in
       _save_notes manager1 w_notes ;;
       let manager2 :=
         AutoNotesManager.mk
           (AutoNotesManager.notes manager1)
           (dict_delitem folder_uuid (AutoNotesManager.folders manager1)) in
       _save_folders manager2 w_folders ;;
       ret (json_response 200 (Some true)))%io
    (ret (json_response 500 None)).

(* ================================================================= *)
(** ** Vocabulary of the properties *)

(** [sub] occurs in [s]: the meaning of Python's [sub in s]. *)
Definition occurs_in (sub s : string) : Prop :=
  exists before after, s = before ++ sub ++ after.

(** [shown] keeps some of the items of [stored], in their order, each
    position at most once. *)
Inductive Subseq {A : Type} : list A -> list A -> Prop :=
| Subseq_nil : Subseq [] []
| Subseq_keep x shown stored : Subseq shown stored -> Subseq (x :: shown) (x :: stored)
| Subseq_skip x shown stored : Subseq shown stored -> Subseq shown (x :: stored).

Definition is_dict (v : pyval) : bool :=
  match v with PDict _ => true | _ => false end.

(** The context has the shape the interface gives it: every node type of
    [workflow_nodes] carries a map of attributes. *)
Definition attribute_maps (workflow_nodes : option (dict pyval)) : bool :=
  match workflow_nodes with
  | None => true
  | Some nodes => forallb is_dict (dict_values nodes)
  end.

(** The condition holds in the context. *)
Definition matches
    (selected_node_type : option string)
    (selected_node_attributes : option (dict pyval))
    (workflow_name : option string)
    (workflow_nodes : option (dict pyval))
    (condition : TriggerCondition.t) : bool :=
  match _check_trigger_condition condition selected_node_type
          selected_node_attributes workflow_name workflow_nodes with
  | Ok b => b
  | _ => false
  end.

(** A note is shown when it is pinned or one of its conditions holds. *)
Definition displayed
    (selected_node_type : option string)
    (selected_node_attributes : option (dict pyval))
    (workflow_name : option string)
    (workflow_nodes : option (dict pyval))
    (note : Note.t) : bool :=
  Note.pinned note ||
  existsb (matches selected_node_type selected_node_attributes workflow_name workflow_nodes)
    (Note.trigger_conditions note).

(** Every entry of the dict sits under the key [key_of] computes from it,
    and no key occurs twice. *)
Definition keyed_by {A : Type} (key_of : A -> string) (d : dict A) : Prop :=
  NoDup (dict_keys d) /\ Forall (fun entry => fst entry = key_of (snd entry)) d.

(** The dict that holds the same records under the keys [key_of] gives. *)
Definition rekey {A : Type} (key_of : A -> string) (d : dict A) : dict A :=
  map (fun entry => (key_of (snd entry), snd entry)) d.

(** The disk after both collections of [self] were saved. *)
Definition saved (self : AutoNotesManager.t) (w_notes w_folders : write_result)
    (d : disk) : disk :=
  snd (_save_folders self w_folders (snd (_save_notes self w_notes d))).

(** Sample data for the closed instances below. *)
Definition sample_note : Note.t :=
  Note.mk "n1" (Some "f1") "hello" "plaintext"
    [TriggerCondition.mk "workflow_name" None None None None (Some ["prod"])]
    false "first" ["a"].

Definition sample_pinned : Note.t :=
  Note.mk "n2" (Some "f1") EmptyString "markdown" [] true "second" [].

Definition sample_folder : Folder.t := Folder.mk "f1" None "inbox".

Definition sample_manager : AutoNotesManager.t :=
  AutoNotesManager.mk [("n1", sample_note); ("n2", sample_pinned)] [("f1", sample_folder)].

Definition empty_disk : disk := mkdisk Absent Absent.

(* ================================================================= *)
(** ** The other routes *)

(** Text handed to a JSON parser: the body of a request
    ([await request.json()]) or a query parameter ([json.loads]). *)
Inductive payload : Type :=
| BadJson                     (* the parser raises *)
| JsonBody (data : pyval).

(** What a route answers. *)
Inductive reply : Type :=
| json_ok (body : pyval)      (* [web.json_response(body)] *)
| not_found                   (* status 404, [success] false *)
| server_error.               (* status 500, [{"error": str(e)}] *)

(** The [try / except Exception] around the body of every route. *)
Definition route (c : io reply) : io reply := io_try c (ret server_error).



(** The keywords [**data] makes for [manager.update_note(note_uuid, **data)]:
    [data] has to be a mapping, and a key that names a positional parameter
    is a second value for it.  [conditions] is what the route stored under
    ['trigger_conditions']. *)
Definition as_kwargs (data : pyval) (conditions : option (list TriggerCondition.t))
    : outcome (dict pyobj) :=
  match data with
  | PDict items =>
      if dict_contains "self" items || dict_contains "note_uuid" items then Raise TypeError
      else
        Ok (map (fun kv =>
                   (fst kv,
                    match conditions with
                    | Some tcs =>
                        if (fst kv =? "trigger_conditions")%string then Conditions tcs
                        else Value (snd kv)
                    | None => Value (snd kv)
                    end))
              items)
  | _ => Raise TypeError
  end.

Module Routes.


(** [POST /autonotes/notes]; [note_uuid] is the value [uuid.uuid4()] returns. *)
Definition create_note (note_uuid : string) (body : payload) (w : write_result)
    : io reply :=
  route
    (manager <- AutoNotesManager_init ;;
     match body with
     | BadJson => ret server_error
     | JsonBody (PDict data) =>
         name <- lift (keyword data "name" as_str "New Note") ;;
         folder_uuid <- lift (keyword data "folder_uuid" as_opt_str None) ;;
         created <- create_note manager note_uuid name folder_uuid w ;;
         ret (json_ok (PDict [("uuid", PStr (fst created))]))
     | JsonBody _ => lift (Raise AttributeError)
     end)%io.

(** [PUT /autonotes/notes/{note_uuid}] *)
Definition update_note (note_uuid : string) (body : payload) (w : write_result)
    : io reply :=
  route
    (manager <- AutoNotesManager_init ;;
     match body with
     | BadJson => ret server_error
     | JsonBody data =>
         given <- lift (py_contains "trigger_conditions" data) ;;
         conditions <- lift (if given then
                               (raw <- py_getitem data "trigger_conditions" ;;
                                items <- py_iter raw ;;
                                tcs <- load_conditions items ;;
                                Ok (Some tcs))%py
                             else Ok None) ;;
         kwargs <- lift (as_kwargs data conditions) ;;
         updated <- update_note manager note_uuid kwargs w ;;
         ret (json_ok (PDict [("success", PBool (fst updated))]))
     end)%io.

(** [DELETE /autonotes/notes/{note_uuid}] *)
Definition delete_note (note_uuid : string) (w : write_result) : io reply :=
  route
    (manager <- AutoNotesManager_init ;;
     deleted <- delete_note manager note_uuid w ;;
     ret (json_ok (PDict [("success", PBool (fst deleted))])))%io.


(** [POST /autonotes/folders]; [folder_uuid] is the value [uuid.uuid4()]
    returns. *)
Definition create_folder (folder_uuid : string) (body : payload) (w : write_result)
    : io reply :=
  route
    (manager <- AutoNotesManager_init ;;
     match body with
     | BadJson => ret server_error
     | JsonBody (PDict data) =>
         name <- lift (keyword data "name" as_str "New Folder") ;;
         parent_uuid <- lift (keyword data "parent_uuid" as_opt_str None) ;;
         created <- create_folder manager folder_uuid name parent_uuid w ;;
         ret (json_ok (PDict [("uuid", PStr (fst created))]))
     | JsonBody _ => lift (Raise AttributeError)
     end)%io.

(** [PUT /autonotes/folders/{folder_uuid}] *)
Definition update_folder (folder_uuid : string) (body : payload) (w : write_result)
    : io reply :=
  route
    (manager <- AutoNotesManager_init ;;
     match body with
     | BadJson => ret server_error
     | JsonBody data =>
         match dict_get folder_uuid (AutoNotesManager.folders manager) with
         | None => ret not_found
         | Some folder =>
             has_name <- lift (py_contains "name" data) ;;
             name <- lift (if has_name then
                             (v <- py_getitem data "name" ;; as_str v)%py
                           else Ok (Folder.name folder)) ;;
             has_parent <- lift (py_contains "parent_uuid" data) ;;
             parent_uuid <- lift (if has_parent then
                                    (v <- py_getitem data "parent_uuid" ;; as_opt_str v)%py
                                  else Ok (Folder.parent_uuid folder)) ;;
             let folder' := Folder.mk (Folder.uuid folder) parent_uuid name in
             let manager' :=
               AutoNotesManager.mk
                 (AutoNotesManager.notes manager)
                 (dict_setitem folder_uuid folder' (AutoNotesManager.folders manager)) in
             _save_folders manager' w ;;
             ret (json_ok (PDict [("success", PBool true)]))
         end
     end)%io.

End Routes.

(* ================================================================= *)
(** ** Strings and dicts *)

Lemma prefix_occurs : forall sub s,
  prefix sub s = true <-> exists after, s = sub ++ after.
Proof.
  induction sub as [|c sub IH]; intros s; simpl.
  - split; [intros _; exists s; reflexivity | destruct s; reflexivity].
  - destruct s as [|c' s]; simpl.
    + split; [discriminate | intros [after H]; discriminate].
    + destruct (Ascii.ascii_dec c c') as [->|Hne].
      * rewrite IH. split; intros [after H]; exists after.
        -- now rewrite H.
        -- now inversion H.
      * split; [discriminate | intros [after H]; inversion H; congruence].
Qed.

Lemma py_in_str_occurs : forall sub s,
  py_in_str sub s = true <-> occurs_in sub s.
Proof.
  intros sub s; induction s as [|c s IH]; cbn [py_in_str].
  - rewrite orb_false_r, prefix_occurs. split.
    + intros [after H]. exists EmptyString, after. exact H.
    + intros [before [after H]]. destruct before; simpl in H.
      * now exists after.
      * discriminate.
  - rewrite orb_true_iff, IH, prefix_occurs. split.
    + intros [[after H] | [before [after H]]].
      * exists EmptyString, after. exact H.
      * exists (String c before), after. simpl. now rewrite H.
    + intros [before [after H]]. destruct before as [|c' before]; simpl in H.
      * left. now exists after.
      * right. inversion H. now exists before, after.
Qed.

Lemma any_in_occurs : forall values text,
  any_in values text = true <-> exists val, In val values /\ occurs_in val text.
Proof.
  intros values text. unfold any_in. rewrite existsb_exists.
  split; intros [val [Hin H]]; exists val; split; auto; now apply py_in_str_occurs.
Qed.

Lemma dict_get_In : forall A k (d : dict A) v,
  dict_get k d = Some v -> In v (dict_values d).
Proof.
  induction d as [|[k' v'] d IH]; simpl; intros v H; [discriminate|].
  destruct (k' =? k)%string; [inversion H; now left | right; auto].
Qed.

Lemma dict_contains_get : forall A k (d : dict A),
  dict_contains k d = true -> exists v, dict_get k d = Some v.
Proof.
  unfold dict_contains; intros A k d H.
  destruct (dict_get k d) as [v|]; [now exists v | discriminate].
Qed.

Lemma Subseq_In : forall A (shown stored : list A) x,
  Subseq shown stored -> In x shown -> In x stored.
Proof.
  intros A shown stored x H; induction H; simpl; intuition.
Qed.

Lemma Subseq_NoDup : forall A (shown stored : list A),
  Subseq shown stored -> NoDup stored -> NoDup shown.
Proof.
  intros A shown stored H; induction H; intros Hnd.
  - constructor.
  - inversion Hnd; subst. constructor; auto.
    intros Hin. eapply Subseq_In in Hin; eauto.
  - inversion Hnd; auto.
Qed.

(* ================================================================= *)
(** ** The matcher *)

Section Matcher.

Variable selected_node_type : option string.
Variable selected_node_attributes : option (dict pyval).
Variable workflow_name : option string.
Variable workflow_nodes : option (dict pyval).

Local Abbreviation check condition :=
  (_check_trigger_condition condition selected_node_type selected_node_attributes
     workflow_name workflow_nodes).

Local Abbreviation holds :=
  (matches selected_node_type selected_node_attributes workflow_name workflow_nodes).

Local Abbreviation shown_note :=
  (displayed selected_node_type selected_node_attributes workflow_name workflow_nodes).

(** The matcher never leaves the declared types. *)
Lemma check_typed : forall condition, check condition <> Untyped.
Proof.
  intros condition. unfold check, _check_trigger_condition.
  destruct (_ =? "node_selected")%string.
  { destruct selected_node_type, (TriggerCondition.node_types condition); discriminate. }
  destruct (_ =? "node_selected_attribute")%string.
  { destruct (opt_str_eqb _ _); try discriminate.
    destruct selected_node_attributes; try discriminate.
    destruct (TriggerCondition.attribute_name condition); try discriminate.
    destruct (dict_get _ _), (TriggerCondition.attribute_values condition); discriminate. }
  destruct (_ =? "node_in_workflow")%string.
  { destruct workflow_nodes, (TriggerCondition.node_types condition); discriminate. }
  destruct (_ =? "node_in_workflow_attribute")%string.
  { destruct workflow_nodes as [nodes|]; try discriminate.
    destruct (TriggerCondition.node_type condition) as [node_type|]; try discriminate.
    destruct (TriggerCondition.attribute_name condition) as [attribute_name|];
      try discriminate.
    destruct (dict_get node_type nodes) as [node_attrs|]; try discriminate.
    destruct node_attrs; simpl; try discriminate.
    - destruct (py_in_str _ _); try discriminate.
      destruct (TriggerCondition.attribute_values condition) as [[|val vals]|];
        discriminate.
    - destruct (existsb _ _); try discriminate.
      destruct (TriggerCondition.attribute_values condition) as [[|val vals]|];
        discriminate.
    - destruct (dict_contains _ _); try discriminate.
      destruct (TriggerCondition.attribute_values condition) as [[|val vals]|];
        try discriminate.
      simpl. destruct (dict_get attribute_name items); discriminate. }
  destruct (_ =? "workflow_name")%string; try discriminate.
  destruct workflow_name, (TriggerCondition.workflow_names condition); discriminate.
Qed.

(** On a context of the declared shape a condition evaluates to a boolean. *)
Lemma check_returns : forall condition,
  attribute_maps workflow_nodes = true ->
  check condition = Ok (holds condition).
Proof.
  intros condition Hmaps. unfold holds, matches. fold (check condition).
  assert (H : exists b, check condition = Ok b); [|destruct H as [b ->]; reflexivity].
  unfold check, _check_trigger_condition.
  destruct (_ =? "node_selected")%string.
  { destruct selected_node_type, (TriggerCondition.node_types condition); eauto. }
  destruct (_ =? "node_selected_attribute")%string.
  { destruct (opt_str_eqb _ _); eauto.
    destruct selected_node_attributes; eauto.
    destruct (TriggerCondition.attribute_name condition); eauto.
    destruct (dict_get _ _), (TriggerCondition.attribute_values condition); eauto. }
  destruct (_ =? "node_in_workflow")%string.
  { destruct workflow_nodes, (TriggerCondition.node_types condition); eauto. }
  destruct (_ =? "node_in_workflow_attribute")%string.
  { destruct workflow_nodes as [nodes|]; eauto.
    destruct (TriggerCondition.node_type condition) as [node_type|]; eauto.
    destruct (TriggerCondition.attribute_name condition) as [attribute_name|]; eauto.
    destruct (dict_get node_type nodes) as [node_attrs|] eqn:Hget; eauto.
    apply dict_get_In in Hget. simpl in Hmaps.
    rewrite forallb_forall in Hmaps. apply Hmaps in Hget.
    destruct node_attrs; try discriminate. simpl.
    destruct (dict_contains attribute_name items) eqn:Hin; eauto.
    destruct (TriggerCondition.attribute_values condition) as [[|val vals]|]; eauto.
    apply dict_contains_get in Hin. destruct Hin as [v Hv].
    simpl. rewrite Hv. simpl. eauto. }
  destruct (_ =? "workflow_name")%string; eauto.
  destruct workflow_name, (TriggerCondition.workflow_names condition); eauto.
Qed.

Lemma first_match_returns : forall conditions,
  attribute_maps workflow_nodes = true ->
  first_match conditions selected_node_type selected_node_attributes
    workflow_name workflow_nodes = Ok (existsb holds conditions).
Proof.
  intros conditions Hmaps. induction conditions as [|condition rest IH]; simpl.
  - reflexivity.
  - fold (check condition). rewrite check_returns by assumption. simpl.
    destruct (holds condition); [reflexivity | exact IH].
Qed.

Lemma matching_loop_returns : forall notes matching_notes,
  attribute_maps workflow_nodes = true ->
  matching_loop notes matching_notes selected_node_type selected_node_attributes
    workflow_name workflow_nodes = Ok (matching_notes ++ filter shown_note notes)%list.
Proof.
  intros notes matching_notes Hmaps. revert matching_notes.
  induction notes as [|note rest IH]; intros matching_notes; simpl.
  - now rewrite app_nil_r.
  - unfold shown_note at 1. destruct (Note.pinned note); simpl.
    + rewrite IH, <- app_assoc. reflexivity.
    + rewrite first_match_returns by assumption. simpl.
      destruct (existsb holds (Note.trigger_conditions note)).
      * rewrite IH, <- app_assoc. reflexivity.
      * apply IH.
Qed.

(** Whatever the context, a list the loop returns extends [matching_notes]
    by a subsequence of the notes that has every pinned one. *)
Lemma matching_loop_sound : forall notes matching_notes shown,
  matching_loop notes matching_notes selected_node_type selected_node_attributes
    workflow_name workflow_nodes = Ok shown ->
  exists kept,
    shown = (matching_notes ++ kept)%list /\ Subseq kept notes /\
    (forall note, In note notes -> Note.pinned note = true -> In note kept).
Proof.
  induction notes as [|note rest IH]; intros matching_notes shown; simpl.
  - intros H; inversion H. exists []. rewrite app_nil_r.
    repeat split; [constructor | contradiction].
  - destruct (Note.pinned note) eqn:Hpin.
    + intros H. apply IH in H. destruct H as [kept [-> [Hsub Hpinned]]].
      exists (note :: kept). rewrite <- app_assoc. repeat split.
      * now constructor.
      * intros n [<-|Hin] Hn; [now left | right; auto].
    + destruct (first_match _ _ _ _ _) as [hit| |]; simpl; try discriminate.
      intros H. apply IH in H. destruct H as [kept [-> [Hsub Hpinned]]].
      destruct hit.
      * exists (note :: kept). rewrite <- app_assoc. repeat split.
        -- now constructor.
        -- intros n [<-|Hin] Hn; [now left | right; auto].
      * exists kept. repeat split.
        -- now constructor.
        -- intros n [<-|Hin] Hn; [congruence | auto].
Qed.

End Matcher.

(* ================================================================= *)
(** ** Note selection *)

Lemma automatic_mode : forall self mode snt sna wn wnodes,
  mode <> "all" ->
  get_notes_for_display self mode snt sna wn wnodes =
  matching_loop (dict_values (AutoNotesManager.notes self)) [] snt sna wn wnodes.
Proof.
  intros self mode snt sna wn wnodes Hmode. unfold get_notes_for_display.
  apply String.eqb_neq in Hmode. now rewrite Hmode.
Qed.

(** C1.  Under automatic mode (any [mode] other than "all") a pinned note
    of the store is in the list [get_notes_for_display] returns, whatever
    its trigger conditions (none included) and whatever the context: every
    list the function returns has the note, and on a context of the
    declared shape the function does return one. *)
Theorem pinned_note_is_displayed :
  forall self mode snt sna wn wnodes note,
    mode <> "all" ->
    In note (dict_values (AutoNotesManager.notes self)) ->
    Note.pinned note = true ->
    (forall shown,
        get_notes_for_display self mode snt sna wn wnodes = Ok shown -> In note shown)
    /\ (attribute_maps wnodes = true ->
        exists shown,
          get_notes_for_display self mode snt sna wn wnodes = Ok shown /\ In note shown).
Proof.
  intros self mode snt sna wn wnodes note Hmode Hin Hpin.
  rewrite automatic_mode by assumption.
  assert (Hsound : forall shown,
             matching_loop (dict_values (AutoNotesManager.notes self)) [] snt sna wn wnodes
             = Ok shown -> In note shown).
  { intros shown H. apply matching_loop_sound in H.
    destruct H as [kept [-> [_ Hpinned]]]. simpl. now apply Hpinned. }
  split; [exact Hsound|].
  intros Hmaps. eexists. split.
  - now apply matching_loop_returns.
  - apply Hsound. now apply matching_loop_returns.
Qed.

Lemma pinned_note_is_displayed_witness :
  exists shown,
    get_notes_for_display sample_manager "automatic" None None None None = Ok shown
    /\ In sample_pinned shown.
Proof.
  apply (pinned_note_is_displayed sample_manager "automatic" None None None None sample_pinned).
  - discriminate.
  - simpl. right. left. reflexivity.
  - reflexivity.
  - reflexivity.
Defined.

(** C2.  Under automatic mode, on a context of the declared shape, a note
    of the store that is not pinned is in the returned list exactly when
    [_check_trigger_condition] returns [True] for one of its conditions;
    a note without conditions is therefore left out. *)
Theorem unpinned_note_displayed_iff_condition_holds :
  forall self mode snt sna wn wnodes note,
    mode <> "all" ->
    attribute_maps wnodes = true ->
    In note (dict_values (AutoNotesManager.notes self)) ->
    Note.pinned note = false ->
    exists shown,
      get_notes_for_display self mode snt sna wn wnodes = Ok shown
      /\ (In note shown <->
          exists condition,
            In condition (Note.trigger_conditions note) /\
            _check_trigger_condition condition snt sna wn wnodes = Ok true)
      /\ (Note.trigger_conditions note = [] -> ~ In note shown).
Proof.
  intros self mode snt sna wn wnodes note Hmode Hmaps Hin Hpin.
  rewrite automatic_mode by assumption.
  rewrite matching_loop_returns by assumption. simpl.
  eexists. split; [reflexivity|].
  assert (Hiff : In note
                   (filter (fun n => Note.pinned n ||
                                     existsb (matches snt sna wn wnodes)
                                       (Note.trigger_conditions n))
                      (dict_values (AutoNotesManager.notes self))) <->
                 exists condition,
                   In condition (Note.trigger_conditions note) /\
                   _check_trigger_condition condition snt sna wn wnodes = Ok true).
  { rewrite filter_In, Hpin. simpl. rewrite existsb_exists. split.
    - intros [_ [condition [Hc Hholds]]]. exists condition. split; [exact Hc|].
      rewrite (check_returns snt sna wn wnodes condition Hmaps). now rewrite Hholds.
    - intros [condition [Hc Hcheck]]. split; [exact Hin|].
      exists condition. split; [exact Hc|]. unfold matches. now rewrite Hcheck. }
  split; [exact Hiff|].
  intros Hnone Hshown. apply Hiff in Hshown.
  destruct Hshown as [condition [Hc _]]. rewrite Hnone in Hc. contradiction.
Qed.

Lemma unpinned_note_displayed_iff_condition_holds_witness :
  exists shown,
    get_notes_for_display sample_manager "automatic" None None (Some "my-prod-pipeline") None
    = Ok shown
    /\ (In sample_note shown <->
        exists condition,
          In condition (Note.trigger_conditions sample_note) /\
          _check_trigger_condition condition None None (Some "my-prod-pipeline") None = Ok true)
    /\ (Note.trigger_conditions sample_note = [] -> ~ In sample_note shown).
Proof.
  apply (unpinned_note_displayed_iff_condition_holds sample_manager "automatic"
           None None (Some "my-prod-pipeline") None sample_note).
  - discriminate.
  - reflexivity.
  - simpl. left. reflexivity.
  - reflexivity.
Defined.

(** C10.  Under automatic mode a list [get_notes_for_display] returns is a
    subsequence of the stored notes in storage order: it takes each stored
    note at most once, so distinct stored notes stay distinct, and a note
    with several conditions that hold is not repeated.  On a context of the
    declared shape the function does return a list. *)
Theorem displayed_notes_are_a_subsequence :
  forall self mode snt sna wn wnodes,
    mode <> "all" ->
    (forall shown,
        get_notes_for_display self mode snt sna wn wnodes = Ok shown ->
        Subseq shown (dict_values (AutoNotesManager.notes self))
        /\ (NoDup (dict_values (AutoNotesManager.notes self)) -> NoDup shown))
    /\ (attribute_maps wnodes = true ->
        exists shown, get_notes_for_display self mode snt sna wn wnodes = Ok shown).
Proof.
  intros self mode snt sna wn wnodes Hmode.
  rewrite automatic_mode by assumption. split.
  - intros shown H. apply matching_loop_sound in H.
    destruct H as [kept [-> [Hsub _]]]. simpl. split; [exact Hsub|].
    now apply Subseq_NoDup.
  - intros Hmaps. eexists. now apply matching_loop_returns.
Qed.

Lemma displayed_notes_are_a_subsequence_witness :
  (forall shown,
      get_notes_for_display sample_manager "automatic" None None
        (Some "my-prod-pipeline") None = Ok shown ->
      Subseq shown [sample_note; sample_pinned]
      /\ (NoDup [sample_note; sample_pinned] -> NoDup shown))
  /\ exists shown,
       get_notes_for_display sample_manager "automatic" None None
         (Some "my-prod-pipeline") None = Ok shown.
Proof.
  destruct (displayed_notes_are_a_subsequence sample_manager "automatic"
              None None (Some "my-prod-pipeline") None) as [Hsub Hret].
  - discriminate.
  - split; [exact Hsub | apply Hret; reflexivity].
Defined.

(** The shape of the context matters for returning at all: a node type
    that carries a number instead of an attribute map makes the membership
    test of the [node_in_workflow_attribute] branch raise, and the
    exception leaves [get_notes_for_display]. *)
Lemma misshapen_context_raises :
  get_notes_for_display
    (AutoNotesManager.mk
       [("n3", Note.mk "n3" None EmptyString "plaintext"
                 [TriggerCondition.mk "node_in_workflow_attribute" None (Some "X")
                    (Some "a") None None]
                 false "third" [])]
       [])
    "automatic" None None None (Some [("X", PInt 5)])
  = Raise TypeError.
Proof. reflexivity. Qed.

(* ================================================================= *)
(** ** Evaluating one condition *)

(** C3.  List-valued comparisons test containment, not equality.  A
    [workflow_name] condition holds exactly when one of its
    [workflow_names] occurs in the context's workflow name, and a
    [node_selected_attribute] condition on the selected node type whose
    attribute is present holds exactly when one of its [attribute_values]
    occurs in [str] of the attribute.  So "prod" matches the workflow
    "my-prod-pipeline" and "512" matches the attribute "512x512", although
    neither pair is equal. *)
Theorem list_comparisons_test_containment :
  forall node_types node_type attribute_name attribute_values workflow_names
         snt sna wn wnodes names workflow selected name values attributes value,
    dict_get name attributes = Some value ->
    (_check_trigger_condition
       (TriggerCondition.mk "workflow_name" node_types node_type attribute_name
          attribute_values (Some names))
       snt sna (Some workflow) wnodes = Ok true
     <-> exists candidate, In candidate names /\ occurs_in candidate workflow)
    /\ (_check_trigger_condition
          (TriggerCondition.mk "node_selected_attribute" node_types (Some selected)
             (Some name) (Some values) workflow_names)
          (Some selected) (Some attributes) wn wnodes = Ok true
        <-> exists candidate, In candidate values /\ occurs_in candidate (py_str value))
    /\ _check_trigger_condition
         (TriggerCondition.mk "workflow_name" None None None None (Some ["prod"]))
         None None (Some "my-prod-pipeline") None = Ok true
    /\ _check_trigger_condition
         (TriggerCondition.mk "node_selected_attribute" None (Some "X") (Some "res")
            (Some ["512"]) None)
         (Some "X") (Some [("res", PStr "512x512")]) None None = Ok true
    /\ "prod" <> "my-prod-pipeline" /\ "512" <> py_str (PStr "512x512").
Proof.
  intros node_types node_type attribute_name attribute_values workflow_names
         snt sna wn wnodes names workflow selected name values attributes value Hget.
  repeat split; try reflexivity; try discriminate.
  - unfold _check_trigger_condition. simpl. intros H. inversion H.
    now apply any_in_occurs.
  - unfold _check_trigger_condition. simpl. intros H.
    apply any_in_occurs in H. now rewrite H.
  - unfold _check_trigger_condition. simpl. rewrite String.eqb_refl, Hget.
    intros H. inversion H. now apply any_in_occurs.
  - unfold _check_trigger_condition. simpl. rewrite String.eqb_refl, Hget.
    intros H. apply any_in_occurs in H. now rewrite H.
Qed.

Lemma list_comparisons_test_containment_witness :
  (_check_trigger_condition
     (TriggerCondition.mk "workflow_name" None None None None (Some ["prod"; "test"]))
     None None (Some "my-prod-pipeline") None = Ok true
   <-> exists candidate,
         In candidate ["prod"; "test"] /\ occurs_in candidate "my-prod-pipeline")
  /\ (_check_trigger_condition
        (TriggerCondition.mk "node_selected_attribute" None (Some "X") (Some "res")
           (Some ["512"]) None)
        (Some "X") (Some [("res", PInt 512512)]) None None = Ok true
      <-> exists candidate, In candidate ["512"] /\ occurs_in candidate (py_str (PInt 512512))).
Proof.
  destruct (list_comparisons_test_containment None None None None None
              None None None None ["prod"; "test"] "my-prod-pipeline" "X" "res" ["512"]
              [("res", PInt 512512)] (PInt 512512) eq_refl) as [H1 [H2 _]].
  exact (conj H1 H2).
Defined.

(** C4.  A [node_in_workflow_attribute] condition without
    [attribute_values] (absent or empty) holds as soon as its node type is a
    key of [workflow_nodes] and that node's attribute map has the attribute
    name, whatever value the attribute carries. *)
Theorem presence_of_attribute_suffices :
  forall condition snt sna wn nodes node_type attribute_name attributes,
    TriggerCondition.type condition = "node_in_workflow_attribute" ->
    TriggerCondition.node_type condition = Some node_type ->
    TriggerCondition.attribute_name condition = Some attribute_name ->
    TriggerCondition.attribute_values condition = None \/
    TriggerCondition.attribute_values condition = Some [] ->
    dict_get node_type nodes = Some (PDict attributes) ->
    dict_contains attribute_name attributes = true ->
    _check_trigger_condition condition snt sna wn (Some nodes) = Ok true.
Proof.
  intros condition snt sna wn nodes node_type attribute_name attributes
         Hkind Hnode Hname Hvalues Hget Hpresent.
  unfold _check_trigger_condition. rewrite Hkind, Hnode, Hname, Hget. simpl.
  rewrite Hpresent. destruct Hvalues as [-> | ->]; reflexivity.
Qed.

Lemma presence_of_attribute_suffices_witness :
  _check_trigger_condition
    (TriggerCondition.mk "node_in_workflow_attribute" None (Some "KSampler")
       (Some "steps") (Some []) None)
    None None None
    (Some [("KSampler", PDict [("steps", PInt 20); ("cfg", PFloat "7.5")])]) = Ok true.
Proof.
  apply (presence_of_attribute_suffices
           (TriggerCondition.mk "node_in_workflow_attribute" None (Some "KSampler")
              (Some "steps") (Some []) None)
           None None None
           [("KSampler", PDict [("steps", PInt 20); ("cfg", PFloat "7.5")])]
           "KSampler" "steps" [("steps", PInt 20); ("cfg", PFloat "7.5")]).
  - reflexivity.
  - reflexivity.
  - reflexivity.
  - right. reflexivity.
  - reflexivity.
  - reflexivity.
Defined.

(** The other ways a field can be absent do give [False]: the condition of
    C5 fails only where both node types are absent at once. *)
Lemma absent_field_gives_false :
  forall condition snt sna wn wnodes,
    (TriggerCondition.type condition = "node_selected" /\
     (snt = None \/ TriggerCondition.node_types condition = None))
    \/ (TriggerCondition.type condition = "node_selected_attribute" /\
        (sna = None \/ TriggerCondition.attribute_name condition = None \/
         TriggerCondition.attribute_values condition = None \/
         (snt = None /\ TriggerCondition.node_type condition <> None) \/
         (snt <> None /\ TriggerCondition.node_type condition = None)))
    \/ (TriggerCondition.type condition = "node_in_workflow" /\
        (wnodes = None \/ TriggerCondition.node_types condition = None))
    \/ (TriggerCondition.type condition = "node_in_workflow_attribute" /\
        (wnodes = None \/ TriggerCondition.node_type condition = None \/
         TriggerCondition.attribute_name condition = None))
    \/ (TriggerCondition.type condition = "workflow_name" /\
        (wn = None \/ TriggerCondition.workflow_names condition = None)) ->
    _check_trigger_condition condition snt sna wn wnodes = Ok false.
Proof.
  intros condition snt sna wn wnodes H. unfold _check_trigger_condition.
  destruct H as [[-> H] | [[-> H] | [[-> H] | [[-> H] | [-> H]]]]]; simpl.
  - destruct H as [-> | ->]; [reflexivity | now destruct snt].
  - destruct H as [-> | [-> | [-> | [[-> H] | [H ->]]]]].
    + now destruct (opt_str_eqb _ _).
    + destruct (opt_str_eqb _ _); [now destruct sna | reflexivity].
    + destruct (opt_str_eqb _ _); [|reflexivity]. destruct sna; [|reflexivity].
      destruct (TriggerCondition.attribute_name condition); [|reflexivity].
      now destruct (dict_get _ _).
    + now destruct (TriggerCondition.node_type condition).
    + now destruct snt.
  - destruct H as [-> | ->]; [reflexivity | now destruct wnodes].
  - destruct H as [-> | [-> | ->]].
    + reflexivity.
    + now destruct wnodes.
    + destruct wnodes; [|reflexivity].
      now destruct (TriggerCondition.node_type condition).
  - destruct H as [-> | ->]; [reflexivity | now destruct wn].
Qed.

(** C5.  A [node_selected_attribute] condition whose [node_type] is absent,
    met by a context without selected node type: [None == None] lets the
    test through and the condition holds, where absence was to give
    [False]. *)
Theorem absent_node_types_compare_equal :
  _check_trigger_condition
    (TriggerCondition.mk "node_selected_attribute" None None (Some "res") (Some ["512"]) None)
    None (Some [("res", PStr "512x512")]) None None = Ok true.
Proof. reflexivity. Qed.

(* ================================================================= *)
(** ** Dicts keyed by the record's identifier *)

Lemma dict_setitem_absent : forall A k (v : A) (d : dict A),
  ~ In k (dict_keys d) -> dict_setitem k v d = (d ++ [(k, v)])%list.
Proof.
  induction d as [|[k' v'] d IH]; simpl; intros Hk; [reflexivity|].
  destruct (String.eqb_spec k' k) as [->|Hne].
  - exfalso. apply Hk. now left.
  - rewrite IH; [reflexivity|]. intros Hin. apply Hk. now right.
Qed.

Lemma dict_setitem_keys : forall A k (v : A) (d : dict A),
  In k (dict_keys d) -> dict_keys (dict_setitem k v d) = dict_keys d.
Proof.
  induction d as [|[k' v'] d IH]; simpl; intros Hk; [contradiction|].
  destruct (String.eqb_spec k' k) as [->|Hne]; simpl; [reflexivity|].
  rewrite IH; [reflexivity|]. destruct Hk; [contradiction | assumption].
Qed.

Lemma dict_setitem_Forall : forall A (P : string * A -> Prop) k v (d : dict A),
  P (k, v) -> Forall P d -> Forall P (dict_setitem k v d).
Proof.
  induction d as [|[k' v'] d IH]; simpl; intros Hkv Hd.
  - now constructor.
  - inversion Hd; subst. destruct (k' =? k)%string; constructor; auto.
Qed.

Lemma NoDup_snoc : forall A (x : A) (l : list A),
  NoDup l -> ~ In x l -> NoDup (l ++ [x]).
Proof.
  induction l as [|y l IH]; simpl; intros Hnd Hx.
  - constructor; [intros [] | constructor].
  - inversion Hnd; subst. constructor.
    + rewrite in_app_iff. simpl. intuition.
    + apply IH; intuition.
Qed.

Lemma dict_setitem_keyed : forall A (key_of : A -> string) v (d : dict A),
  keyed_by key_of d -> keyed_by key_of (dict_setitem (key_of v) v d).
Proof.
  intros A key_of v d [Hnd Hkeys]. split.
  - destruct (in_dec string_dec (key_of v) (dict_keys d)) as [Hin|Hout].
    + now rewrite dict_setitem_keys.
    + rewrite dict_setitem_absent by assumption. unfold dict_keys.
      rewrite map_app. simpl. now apply NoDup_snoc.
  - now apply dict_setitem_Forall.
Qed.

Lemma rekey_keyed : forall A (key_of : A -> string) (d : dict A),
  keyed_by key_of d -> rekey key_of d = d.
Proof.
  intros A key_of d [_ Hkeys]. unfold rekey.
  induction Hkeys as [|[k v] d Hk _ IH]; simpl; [reflexivity|].
  simpl in Hk. now rewrite IH, Hk.
Qed.

Lemma keyed_values_NoDup : forall A (key_of : A -> string) (d : dict A),
  keyed_by key_of d -> NoDup (map key_of (dict_values d)).
Proof.
  intros A key_of d [Hnd Hkeys].
  replace (map key_of (dict_values d)) with (dict_keys d); [assumption|].
  unfold dict_keys, dict_values. rewrite map_map.
  induction Hkeys as [|entry d Hk _ IH]; simpl; [reflexivity|].
  inversion Hnd; subst. now rewrite IH, Hk.
Qed.

Lemma dict_delitem_keys_incl : forall A k k' (d : dict A),
  In k' (dict_keys (dict_delitem k d)) -> In k' (dict_keys d).
Proof.
  induction d as [|[k0 v0] d IH]; simpl; [auto|].
  destruct (k0 =? k)%string; simpl; intuition.
Qed.

Lemma dict_delitem_keyed : forall A (key_of : A -> string) k (d : dict A),
  keyed_by key_of d -> keyed_by key_of (dict_delitem k d).
Proof.
  intros A key_of k d [Hnd Hkeys]. split.
  - induction d as [|[k0 v0] d IH]; simpl; [constructor|].
    inversion Hnd; subst. inversion Hkeys; subst.
    destruct (k0 =? k)%string; simpl; [assumption|].
    constructor; [|now apply IH].
    intros Hin. apply dict_delitem_keys_incl in Hin. contradiction.
  - induction Hkeys as [|[k0 v0] d Hk Hd IH]; simpl; [constructor|].
    inversion Hnd; subst.
    destruct (k0 =? k)%string; [assumption | constructor; auto].
Qed.

Lemma dict_get_absent : forall A k (d : dict A),
  ~ In k (dict_keys d) -> dict_get k d = None.
Proof.
  induction d as [|[k' v'] d IH]; simpl; intros Hk; [reflexivity|].
  destruct (String.eqb_spec k' k) as [->|Hne].
  - exfalso. apply Hk. now left.
  - apply IH. intros Hin. apply Hk. now right.
Qed.

Lemma dict_delitem_removes : forall A k (d : dict A),
  NoDup (dict_keys d) -> dict_contains k (dict_delitem k d) = false.
Proof.
  unfold dict_contains.
  induction d as [|[k' v'] d IH]; simpl; intros Hnd; [reflexivity|].
  inversion Hnd; subst.
  destruct (String.eqb_spec k' k) as [->|Hne]; simpl.
  - now rewrite dict_get_absent.
  - apply String.eqb_neq in Hne. rewrite Hne. now apply IH.
Qed.

(* ================================================================= *)
(** ** Saving and loading *)

Lemma as_strs_strings : forall l, as_strs (map PStr l) = Ok l.
Proof.
  induction l as [|s l IH]; simpl; [reflexivity | now rewrite IH].
Qed.

Lemma new_TriggerCondition_asdict : forall tc,
  new_TriggerCondition (PDict (asdict_TriggerCondition tc)) = Ok tc.
Proof.
  intros [type node_types node_type attribute_name attribute_values workflow_names].
  destruct node_types, node_type, attribute_name, attribute_values, workflow_names;
    cbn; rewrite ?as_strs_strings; cbn; rewrite ?as_strs_strings; cbn;
    rewrite ?as_strs_strings; reflexivity.
Qed.

Lemma load_conditions_asdict : forall tcs,
  load_conditions (map (fun tc => PDict (asdict_TriggerCondition tc)) tcs) = Ok tcs.
Proof.
  induction tcs as [|tc tcs IH]; cbn [map load_conditions]; [reflexivity|].
  rewrite new_TriggerCondition_asdict. cbn [bind]. now rewrite IH.
Qed.

(** What [_save_notes] writes for one note. *)
Lemma load_note_asdict : forall note,
  load_note
    (PDict (dict_setitem "trigger_conditions"
              (PList (map (fun tc => PDict (asdict_TriggerCondition tc))
                        (Note.trigger_conditions note)))
              (asdict_Note note))) = Ok note.
Proof.
  intros [uuid folder_uuid content format_style trigger_conditions pinned name tags].
  cbn. rewrite load_conditions_asdict. cbn.
  destruct folder_uuid; cbn; rewrite as_strs_strings; reflexivity.
Qed.

Lemma new_Folder_asdict : forall folder,
  new_Folder (PDict (asdict_Folder folder)) = Ok folder.
Proof.
  intros [uuid parent_uuid name]. destruct parent_uuid; reflexivity.
Qed.

Lemma load_notes_loop_snapshot : forall records notes,
  NoDup (dict_keys notes ++ map Note.uuid records) ->
  load_notes_loop
    (map (fun note =>
            PDict (dict_setitem "trigger_conditions"
                     (PList (map (fun tc => PDict (asdict_TriggerCondition tc))
                               (Note.trigger_conditions note)))
                     (asdict_Note note)))
       records) notes
  = Ok (notes ++ map (fun note => (Note.uuid note, note)) records)%list.
Proof.
  induction records as [|note records IH]; intros notes Hnd;
    cbn [map load_notes_loop].
  - now rewrite app_nil_r.
  - rewrite load_note_asdict. cbn [bind].
    rewrite dict_setitem_absent.
    + rewrite IH; [now rewrite <- app_assoc|].
      unfold dict_keys. rewrite map_app, <- app_assoc. exact Hnd.
    + intros Hin. apply NoDup_remove_2 in Hnd. apply Hnd.
      apply in_or_app. now left.
Qed.

Lemma load_folders_loop_snapshot : forall records folders,
  NoDup (dict_keys folders ++ map Folder.uuid records) ->
  load_folders_loop (map (fun folder => PDict (asdict_Folder folder)) records) folders
  = Ok (folders ++ map (fun folder => (Folder.uuid folder, folder)) records)%list.
Proof.
  induction records as [|folder records IH]; intros folders Hnd;
    cbn [map load_folders_loop].
  - now rewrite app_nil_r.
  - rewrite new_Folder_asdict. cbn [bind].
    rewrite dict_setitem_absent.
    + rewrite IH; [now rewrite <- app_assoc|].
      unfold dict_keys. rewrite map_app, <- app_assoc. exact Hnd.
    + intros Hin. apply NoDup_remove_2 in Hnd. apply Hnd.
      apply in_or_app. now left.
Qed.

Lemma load_saved_notes : forall self,
  NoDup (map Note.uuid (dict_values (AutoNotesManager.notes self))) ->
  _load_notes (Document (notes_snapshot self))
  = Ok (rekey Note.uuid (AutoNotesManager.notes self)).
Proof.
  intros self Hnd. unfold _load_notes, notes_snapshot. simpl.
  rewrite load_notes_loop_snapshot by exact Hnd. simpl.
  unfold rekey, dict_values. now rewrite map_map.
Qed.

Lemma load_saved_folders : forall self,
  NoDup (map Folder.uuid (dict_values (AutoNotesManager.folders self))) ->
  _load_folders (Document (folders_snapshot self))
  = Ok (rekey Folder.uuid (AutoNotesManager.folders self)).
Proof.
  intros self Hnd. unfold _load_folders, folders_snapshot. simpl.
  rewrite load_folders_loop_snapshot by exact Hnd. simpl.
  unfold rekey, dict_values. now rewrite map_map.
Qed.

(** Loading never raises, and what it returns is keyed by identifier. *)
Lemma load_notes_loop_keyed : forall data notes loaded,
  keyed_by Note.uuid notes ->
  load_notes_loop data notes = Ok loaded -> keyed_by Note.uuid loaded.
Proof.
  induction data as [|note_data data IH]; simpl; intros notes loaded Hk H.
  - inversion H; subst; exact Hk.
  - destruct (load_note note_data) as [note| |]; simpl in H; try discriminate.
    eapply IH; [|exact H]. now apply dict_setitem_keyed.
Qed.

Lemma load_folders_loop_keyed : forall data folders loaded,
  keyed_by Folder.uuid folders ->
  load_folders_loop data folders = Ok loaded -> keyed_by Folder.uuid loaded.
Proof.
  induction data as [|folder_data data IH]; simpl; intros folders loaded Hk H.
  - inversion H; subst; exact Hk.
  - destruct (new_Folder folder_data) as [folder| |]; simpl in H; try discriminate.
    eapply IH; [|exact H]. now apply dict_setitem_keyed.
Qed.

Lemma keyed_by_nil : forall A (key_of : A -> string), keyed_by key_of [].
Proof. intros; split; constructor. Qed.

Lemma _load_notes_keyed : forall f notes,
  _load_notes f = Ok notes -> keyed_by Note.uuid notes.
Proof.
  intros [| |data] notes H; simpl in H;
    try (inversion H; apply keyed_by_nil).
  destruct (py_iter data) as [items| |]; simpl in H;
    try (inversion H; apply keyed_by_nil).
  destruct (load_notes_loop items []) as [loaded| |] eqn:Hloop; simpl in H;
    try (inversion H; apply keyed_by_nil).
  inversion H; subst. eapply load_notes_loop_keyed; [apply keyed_by_nil | exact Hloop].
Qed.

Lemma _load_folders_keyed : forall f folders,
  _load_folders f = Ok folders -> keyed_by Folder.uuid folders.
Proof.
  intros [| |data] folders H; simpl in H;
    try (inversion H; apply keyed_by_nil).
  destruct (py_iter data) as [items| |]; simpl in H;
    try (inversion H; apply keyed_by_nil).
  destruct (load_folders_loop items []) as [loaded| |] eqn:Hloop; simpl in H;
    try (inversion H; apply keyed_by_nil).
  inversion H; subst. eapply load_folders_loop_keyed; [apply keyed_by_nil | exact Hloop].
Qed.


Lemma dict_values_rekey : forall A (key_of : A -> string) (d : dict A),
  dict_values (rekey key_of d) = dict_values d.
Proof.
  intros A key_of d. unfold dict_values, rekey. rewrite map_map. reflexivity.
Qed.

(** C7.  Saving both collections and loading them again reproduces the same
    records, field for field and condition for condition, provided record
    identifiers are unique within each collection: the loaded values are
    the saved ones in the same order, and a store keyed by its records'
    identifiers is reproduced as a whole. *)
Theorem save_then_load_round_trip :
  forall self d,
    NoDup (map Note.uuid (dict_values (AutoNotesManager.notes self))) ->
    NoDup (map Folder.uuid (dict_values (AutoNotesManager.folders self))) ->
    exists loaded,
      AutoNotesManager_init (saved self Written Written d)
      = (Ok loaded, saved self Written Written d)
      /\ dict_values (AutoNotesManager.notes loaded)
         = dict_values (AutoNotesManager.notes self)
      /\ dict_values (AutoNotesManager.folders loaded)
         = dict_values (AutoNotesManager.folders self)
      /\ (keyed_by Note.uuid (AutoNotesManager.notes self) ->
          keyed_by Folder.uuid (AutoNotesManager.folders self) ->
          loaded = self).
Proof.
  intros self d Hnotes Hfolders.
  exists (AutoNotesManager.mk (rekey Note.uuid (AutoNotesManager.notes self))
            (rekey Folder.uuid (AutoNotesManager.folders self))).
  repeat split.
  - unfold AutoNotesManager_init, saved, _save_folders, _save_notes, io_try,
      dump_folders_file, dump_notes_file.
    cbn [snd notes_file folders_file].
    rewrite load_saved_notes by assumption. cbn [bind].
    rewrite load_saved_folders by assumption. reflexivity.
  - apply dict_values_rekey.
  - apply dict_values_rekey.
  - intros Hkn Hkf. rewrite !rekey_keyed by assumption. now destruct self.
Qed.

Lemma save_then_load_round_trip_witness :
  AutoNotesManager_init (saved sample_manager Written Written empty_disk)
  = (Ok sample_manager, saved sample_manager Written Written empty_disk).
Proof.
  destruct (save_then_load_round_trip sample_manager empty_disk)
    as [loaded [Hinit [_ [_ Hsame]]]].
  - simpl. repeat constructor; simpl; intuition discriminate.
  - simpl. repeat constructor; simpl; intuition.
  - rewrite Hinit, Hsame; [reflexivity | |].
    + split; simpl; repeat constructor; simpl; intuition discriminate.
    + split; simpl; repeat constructor; simpl; intuition.
Defined.

(* ================================================================= *)
(** ** Deleting a folder *)

Lemma unfile_uuid : forall folder_uuid note,
  Note.uuid (unfile folder_uuid note) = Note.uuid note.
Proof.
  intros folder_uuid note. unfold unfile. now destruct (opt_str_eqb _ _).
Qed.

Lemma unfile_clears : forall folder_uuid note,
  Note.folder_uuid (unfile folder_uuid note) <> Some folder_uuid.
Proof.
  intros folder_uuid note. unfold unfile.
  destruct (opt_str_eqb _ _) eqn:Heq; simpl; [discriminate|].
  intros H. rewrite H in Heq. simpl in Heq. now rewrite String.eqb_refl in Heq.
Qed.

Lemma unfile_keyed : forall folder_uuid (notes : dict Note.t),
  keyed_by Note.uuid notes ->
  keyed_by Note.uuid (map (fun entry => (fst entry, unfile folder_uuid (snd entry))) notes).
Proof.
  intros folder_uuid notes [Hnd Hkeys]. split.
  - unfold dict_keys. rewrite map_map. simpl. exact Hnd.
  - rewrite Forall_map. simpl. eapply Forall_impl; [|exact Hkeys].
    intros entry H. simpl in H. now rewrite unfile_uuid.
Qed.

(** C6.  On a disk that loads as [manager], deleting a folder the manager
    has answers success when both writes go through; a manager loaded
    afterwards holds every note with [unfile] applied, so no note refers to
    the folder, and holds the folders without the deleted one.  Deleting a
    folder the manager does not have answers 404 with [success] false and
    leaves the disk as it was. *)
Theorem delete_folder_unfiles_its_notes :
  forall folder_uuid manager d,
    AutoNotesManager_init d = (Ok manager, d) ->
    (dict_contains folder_uuid (AutoNotesManager.folders manager) = true ->
     exists d' manager',
       delete_folder folder_uuid Written Written d = (Ok (json_response 200 (Some true)), d')
       /\ AutoNotesManager_init d' = (Ok manager', d')
       /\ AutoNotesManager.notes manager'
          = map (fun entry => (fst entry, unfile folder_uuid (snd entry)))
              (AutoNotesManager.notes manager)
       /\ Forall (fun note => Note.folder_uuid note <> Some folder_uuid)
            (dict_values (AutoNotesManager.notes manager'))
       /\ AutoNotesManager.folders manager'
          = dict_delitem folder_uuid (AutoNotesManager.folders manager)
       /\ dict_contains folder_uuid (AutoNotesManager.folders manager') = false)
    /\ (dict_contains folder_uuid (AutoNotesManager.folders manager) = false ->
        forall w_notes w_folders,
          delete_folder folder_uuid w_notes w_folders d
          = (Ok (json_response 404 (Some false)), d)).
Proof.
  intros folder_uuid manager d Hinit.
  assert (Hkeyed : keyed_by Note.uuid (AutoNotesManager.notes manager) /\
                   keyed_by Folder.uuid (AutoNotesManager.folders manager)).
  { unfold AutoNotesManager_init in Hinit.
    destruct (_load_notes (notes_file d)) as [notes| |] eqn:Hn; try discriminate.
    destruct (_load_folders (folders_file d)) as [folders| |] eqn:Hf; try discriminate.
    simpl in Hinit. inversion Hinit; subst. simpl.
    split; [eapply _load_notes_keyed | eapply _load_folders_keyed]; eassumption. }
  destruct Hkeyed as [Hkn Hkf]. split.
  - intros Hhas.
    set (notes' := map (fun entry => (fst entry, unfile folder_uuid (snd entry)))
                     (AutoNotesManager.notes manager)).
    set (folders' := dict_delitem folder_uuid (AutoNotesManager.folders manager)).
    assert (Hkn' : keyed_by Note.uuid notes') by now apply unfile_keyed.
    assert (Hkf' : keyed_by Folder.uuid folders') by now apply dict_delitem_keyed.
    exists (mkdisk
              (Document (notes_snapshot
                           (AutoNotesManager.mk notes' (AutoNotesManager.folders manager))))
              (Document (folders_snapshot (AutoNotesManager.mk notes' folders')))),
           (AutoNotesManager.mk notes' folders').
    split; [|split; [|repeat split]].
    + unfold delete_folder, io_try, io_bind. rewrite Hinit, Hhas. reflexivity.
    + unfold AutoNotesManager_init. cbn [notes_file folders_file].
      rewrite load_saved_notes by (apply keyed_values_NoDup; exact Hkn').
      cbn [bind AutoNotesManager.notes].
      rewrite load_saved_folders by (apply keyed_values_NoDup; exact Hkf').
      cbn [bind AutoNotesManager.folders AutoNotesManager.notes].
      now rewrite !rekey_keyed.
    + cbn [AutoNotesManager.notes]. unfold notes', dict_values.
      rewrite map_map. rewrite Forall_map. apply Forall_forall.
      intros entry _. apply unfile_clears.
    + cbn [AutoNotesManager.folders]. apply dict_delitem_removes. apply Hkf.
  - intros Hmissing w_notes w_folders.
    unfold delete_folder, io_try, io_bind. rewrite Hinit, Hmissing. reflexivity.
Qed.

Lemma delete_folder_unfiles_its_notes_witness :
  exists d' manager',
    delete_folder "f1" Written Written (saved sample_manager Written Written empty_disk)
    = (Ok (json_response 200 (Some true)), d')
    /\ AutoNotesManager_init d' = (Ok manager', d')
    /\ AutoNotesManager.notes manager'
       = map (fun entry => (fst entry, unfile "f1" (snd entry)))
           (AutoNotesManager.notes sample_manager)
    /\ Forall (fun note => Note.folder_uuid note <> Some "f1")
         (dict_values (AutoNotesManager.notes manager'))
    /\ AutoNotesManager.folders manager'
       = dict_delitem "f1" (AutoNotesManager.folders sample_manager)
    /\ dict_contains "f1" (AutoNotesManager.folders manager') = false.
Proof.
  apply (delete_folder_unfiles_its_notes "f1" sample_manager
           (saved sample_manager Written Written empty_disk)).
  - reflexivity.
  - reflexivity.
Defined.

(* ================================================================= *)
(** ** Updating a note *)

Lemma dict_setitem_same : forall A k (v : A) (d : dict A),
  dict_get k d = Some v -> dict_setitem k v d = d.
Proof.
  induction d as [|[k' v'] d IH]; simpl; intros H; [discriminate|].
  destruct (String.eqb_spec k' k) as [->|Hne].
  - now inversion H.
  - now rewrite IH.
Qed.

(** An unknown identifier: [False], nothing written, nothing changed. *)
Lemma update_note_unknown_id : forall self note_uuid kwargs w d,
  dict_get note_uuid (AutoNotesManager.notes self) = None ->
  update_note self note_uuid kwargs w d = (Ok (false, self), d).
Proof.
  intros self note_uuid kwargs w d H. unfold update_note. now rewrite H.
Qed.

(** Keywords that [hasattr] does not find leave the note as it is. *)
Lemma apply_kwargs_unknown : forall note kwargs,
  Forall (fun kw => hasattr_Note (fst kw) = false) kwargs ->
  apply_kwargs note kwargs = Ok note.
Proof.
  intros note kwargs H. induction H as [|[key value] kwargs Hkey _ IH]; simpl.
  - reflexivity.
  - simpl in Hkey. now rewrite Hkey.
Qed.

Lemma update_note_unknown_keywords : forall self note_uuid note kwargs w d,
  dict_get note_uuid (AutoNotesManager.notes self) = Some note ->
  Forall (fun kw => hasattr_Note (fst kw) = false) kwargs ->
  update_note self note_uuid kwargs w d = (Ok (true, self), snd (_save_notes self w d)).
Proof.
  intros self note_uuid note kwargs w d Hget Hkw. unfold update_note.
  rewrite Hget. unfold io_bind, lift. rewrite apply_kwargs_unknown by assumption.
  rewrite dict_setitem_same by assumption. destruct self as [notes folders]. simpl.
  destruct w; reflexivity.
Qed.

(** A keyword that names a field sets that field and no other. *)
Lemma setattr_Note_content : forall note text,
  setattr_Note note "content" (Value (PStr text))
  = Ok (Note.mk (Note.uuid note) (Note.folder_uuid note) text (Note.format_style note)
          (Note.trigger_conditions note) (Note.pinned note) (Note.name note)
          (Note.tags note)).
Proof. intros []; reflexivity. Qed.



(** C8.  [update_note] on a stored note with the keyword [__class__], a
    name that is not a field of [Note]: [hasattr] finds it on the instance,
    [setattr] raises [TypeError], and the call does not return [True]. *)
Theorem update_note_raises_on_class_keyword :
  update_note sample_manager "n1" [("__class__", Value (PStr "x"))] Written empty_disk
  = (Raise TypeError, empty_disk).
Proof. reflexivity. Qed.

(* ================================================================= *)
(** ** Failed writes *)

Lemma _save_notes_returns : forall self w d, fst (_save_notes self w d) = Ok tt.
Proof. intros self [|remains] d; reflexivity. Qed.

Lemma _save_folders_returns : forall self w d, fst (_save_folders self w d) = Ok tt.
Proof. intros self [|remains] d; reflexivity. Qed.

(** C9, as stated, fails: the write of [update_note] fails and leaves no
    file, and the call returns [True] with the note edited in memory. *)
Lemma failed_write_reported_as_success :
  update_note sample_manager "n1" [("content", Value (PStr "edited"))]
    (Failed Absent) empty_disk
  = (Ok (true,
         AutoNotesManager.mk
           [("n1", Note.mk "n1" (Some "f1") "edited" "plaintext"
                     [TriggerCondition.mk "workflow_name" None None None None (Some ["prod"])]
                     false "first" ["a"]);
            ("n2", sample_pinned)]
           [("f1", sample_folder)]),
     empty_disk).
Proof. reflexivity. Qed.

(** C9, amended.  A failed write is caught inside [_save_notes] and
    [_save_folders], which return normally and leave the file as the failed
    write left it.  Each mutation therefore returns what it returns when
    the write goes through, with the same collections in memory. *)
Theorem failed_write_is_caught_by_save :
  forall self w_notes w_folders remains d,
    _save_notes self (Failed remains) d = (Ok tt, mkdisk remains (folders_file d))
    /\ _save_folders self (Failed remains) d = (Ok tt, mkdisk (notes_file d) remains)
    /\ (forall note_uuid name folder_uuid,
           fst (create_note self note_uuid name folder_uuid (Failed remains) d)
           = fst (create_note self note_uuid name folder_uuid Written d))
    /\ (forall note_uuid kwargs,
           fst (update_note self note_uuid kwargs (Failed remains) d)
           = fst (update_note self note_uuid kwargs Written d))
    /\ (forall note_uuid,
           fst (delete_note self note_uuid (Failed remains) d)
           = fst (delete_note self note_uuid Written d))
    /\ (forall folder_uuid name parent_uuid,
           fst (create_folder self folder_uuid name parent_uuid (Failed remains) d)
           = fst (create_folder self folder_uuid name parent_uuid Written d))
    /\ (forall folder_uuid,
           fst (delete_folder folder_uuid w_notes w_folders d)
           = fst (delete_folder folder_uuid Written Written d)).
Proof.
  intros self w_notes w_folders remains d. repeat split.
  - intros note_uuid kwargs. unfold update_note.
    destruct (dict_get note_uuid (AutoNotesManager.notes self)) as [note|];
      [|reflexivity].
    unfold io_bind, lift. destruct (apply_kwargs note kwargs); reflexivity.
  - intros note_uuid. unfold delete_note.
    destruct (dict_contains note_uuid (AutoNotesManager.notes self)); reflexivity.
  - intros folder_uuid. unfold delete_folder, io_try, io_bind, AutoNotesManager_init.
    destruct (_load_notes (notes_file d)) as [notes| |]; try reflexivity;
      cbn [bind].
    destruct (_load_folders (folders_file d)) as [folders| |]; try reflexivity;
      cbn [bind AutoNotesManager.folders].
    destruct (dict_contains folder_uuid folders); [|reflexivity].
    destruct w_notes, w_folders; reflexivity.
Qed.

(* ================================================================= *)
(** ** More on evaluating one condition *)

(** X1.  A condition whose [type] is none of the five kinds holds in no
    context and raises in none, however the context is shaped. *)
Theorem unknown_kind_never_matches :
  forall condition snt sna wn wnodes,
    ~ In (TriggerCondition.type condition)
        ["node_selected"; "node_selected_attribute"; "node_in_workflow";
         "node_in_workflow_attribute"; "workflow_name"] ->
    _check_trigger_condition condition snt sna wn wnodes = Ok false.
Proof.
  intros condition snt sna wn wnodes Hkind. unfold _check_trigger_condition.
  repeat match goal with
         | |- context [(TriggerCondition.type condition =? ?s)%string] =>
             destruct (String.eqb_spec (TriggerCondition.type condition) s) as [Heq|_];
             [exfalso; apply Hkind; rewrite Heq; simpl; tauto|]
         end.
  reflexivity.
Qed.

Lemma unknown_kind_never_matches_witness :
  _check_trigger_condition
    (TriggerCondition.mk "Workflow_Name" None None None None (Some ["prod"]))
    None None (Some "my-prod-pipeline") (Some [("X", PInt 5)]) = Ok false.
Proof.
  apply unknown_kind_never_matches.
  simpl. intros [H|[H|[H|[H|[H|[]]]]]]; discriminate H.
Defined.



(** X3.  A [node_selected] condition holds exactly when a node is selected
    and its type equals one of the condition's [node_types]: the test is
    membership in the list, not containment in a string. *)
Theorem node_selected_is_exact_membership :
  forall condition snt sna wn wnodes,
    TriggerCondition.type condition = "node_selected" ->
    (_check_trigger_condition condition snt sna wn wnodes = Ok true
     <-> exists selected node_types,
           snt = Some selected
           /\ TriggerCondition.node_types condition = Some node_types
           /\ In selected node_types).
Proof.
  intros condition snt sna wn wnodes Hkind.
  unfold _check_trigger_condition. rewrite Hkind. simpl. split.
  - destruct snt as [selected|], (TriggerCondition.node_types condition) as [types|];
      try discriminate.
    intros H. inversion H as [Hin]. exists selected, types. repeat split.
    unfold str_in_list in Hin. apply existsb_exists in Hin.
    destruct Hin as [x [Hx Heq]]. apply String.eqb_eq in Heq. now subst.
  - intros [selected [types [-> [-> Hin]]]]. f_equal.
    unfold str_in_list. apply existsb_exists. exists selected.
    split; [exact Hin | apply String.eqb_refl].
Qed.

Lemma node_selected_is_exact_membership_witness :
  _check_trigger_condition
    (TriggerCondition.mk "node_selected" (Some ["KSampler"; "VAEDecode"]) None None None None)
    (Some "KSampler") None None None = Ok true
  <-> exists selected node_types,
        Some "KSampler" = Some selected
        /\ Some ["KSampler"; "VAEDecode"] = Some node_types
        /\ In selected node_types.
Proof.
  apply (node_selected_is_exact_membership
           (TriggerCondition.mk "node_selected" (Some ["KSampler"; "VAEDecode"])
              None None None None)
           (Some "KSampler") None None None).
  reflexivity.
Defined.

(** X4.  A [node_in_workflow] condition holds exactly when one of its
    [node_types] is a key of [workflow_nodes]; what the key carries is not
    looked at. *)
Theorem node_in_workflow_iff_a_type_is_present :
  forall condition snt sna wn wnodes,
    TriggerCondition.type condition = "node_in_workflow" ->
    (_check_trigger_condition condition snt sna wn wnodes = Ok true
     <-> exists nodes node_types node_type,
           wnodes = Some nodes
           /\ TriggerCondition.node_types condition = Some node_types
           /\ In node_type node_types
           /\ dict_contains node_type nodes = true).
Proof.
  intros condition snt sna wn wnodes Hkind.
  unfold _check_trigger_condition. rewrite Hkind. simpl. split.
  - destruct wnodes as [nodes|], (TriggerCondition.node_types condition) as [types|];
      try discriminate.
    intros H.
    assert (Hin : existsb (fun node_type => dict_contains node_type nodes) types = true)
      by congruence.
    apply existsb_exists in Hin. destruct Hin as [node_type [Hx Hhas]].
    exists nodes, types, node_type.
    split; [reflexivity|]. split; [reflexivity|]. split; [exact Hx | exact Hhas].
  - intros [nodes [types [node_type [-> [-> [Hin Hhas]]]]]]. f_equal.
    apply existsb_exists. exists node_type. split; assumption.
Qed.

Lemma node_in_workflow_iff_a_type_is_present_witness :
  _check_trigger_condition
    (TriggerCondition.mk "node_in_workflow" (Some ["KSampler"]) None None None None)
    None None None (Some [("KSampler", PInt 5)]) = Ok true
  <-> exists nodes node_types node_type,
        Some [("KSampler", PInt 5)] = Some nodes
        /\ Some ["KSampler"] = Some node_types
        /\ In node_type node_types
        /\ dict_contains node_type nodes = true.
Proof.
  apply (node_in_workflow_iff_a_type_is_present
           (TriggerCondition.mk "node_in_workflow" (Some ["KSampler"]) None None None None)
           None None None (Some [("KSampler", PInt 5)])).
  reflexivity.
Defined.

Lemma any_in_empty_candidate : forall candidates text,
  In EmptyString candidates -> any_in candidates text = true.
Proof.
  intros candidates text Hin. apply any_in_occurs. exists EmptyString.
  split; [exact Hin|]. exists EmptyString, text. reflexivity.
Qed.

(** X5.  The empty string occurs in every text, so a list of candidates
    that has it matches whatever the context carries: every workflow name,
    and every value of an attribute that is present, for the selected node
    as for a node of the workflow. *)
Theorem empty_candidate_matches_every_text :
  forall candidates,
    In EmptyString candidates ->
    (forall node_types node_type attribute_name attribute_values snt sna workflow wnodes,
        _check_trigger_condition
          (TriggerCondition.mk "workflow_name" node_types node_type attribute_name
             attribute_values (Some candidates))
          snt sna (Some workflow) wnodes = Ok true)
    /\ (forall node_types selected name workflow_names attributes wn wnodes,
           dict_contains name attributes = true ->
           _check_trigger_condition
             (TriggerCondition.mk "node_selected_attribute" node_types (Some selected)
                (Some name) (Some candidates) workflow_names)
             (Some selected) (Some attributes) wn wnodes = Ok true)
    /\ (forall node_types node_type name workflow_names attributes snt sna wn nodes,
           dict_get node_type nodes = Some (PDict attributes) ->
           dict_contains name attributes = true ->
           _check_trigger_condition
             (TriggerCondition.mk "node_in_workflow_attribute" node_types (Some node_type)
                (Some name) (Some candidates) workflow_names)
             snt sna wn (Some nodes) = Ok true).
Proof.
  intros candidates Hin. repeat split.
  - intros. unfold _check_trigger_condition. simpl.
    now rewrite any_in_empty_candidate.
  - intros node_types selected name workflow_names attributes wn wnodes Hhas.
    apply dict_contains_get in Hhas. destruct Hhas as [value Hget].
    unfold _check_trigger_condition. simpl. rewrite String.eqb_refl, Hget.
    now rewrite any_in_empty_candidate.
  - intros node_types node_type name workflow_names attributes snt sna wn nodes
           Hnode Hhas.
    unfold _check_trigger_condition. simpl. rewrite Hnode. simpl. rewrite Hhas.
    apply dict_contains_get in Hhas. destruct Hhas as [value Hget].
    destruct candidates as [|val vals]; [contradiction|].
    simpl. rewrite Hget. simpl. f_equal.
    now apply (any_in_empty_candidate (val :: vals)).
Qed.

Lemma empty_candidate_matches_every_text_witness :
  _check_trigger_condition
    (TriggerCondition.mk "workflow_name" None None None None (Some ["prod"; EmptyString]))
    None None (Some "scratch") None = Ok true
  /\ _check_trigger_condition
       (TriggerCondition.mk "node_selected_attribute" None (Some "KSampler") (Some "steps")
          (Some ["prod"; EmptyString]) None)
       (Some "KSampler") (Some [("steps", PInt 20)]) None None = Ok true
  /\ _check_trigger_condition
       (TriggerCondition.mk "node_in_workflow_attribute" None (Some "KSampler")
          (Some "steps") (Some ["prod"; EmptyString]) None)
       None None None (Some [("KSampler", PDict [("steps", PInt 20)])]) = Ok true.
Proof.
  destruct (empty_candidate_matches_every_text ["prod"; EmptyString]) as [H1 [H2 H3]].
  - simpl. right. left. reflexivity.
  - split; [apply H1 | split; [apply H2 | apply (H3 None "KSampler" "steps" None
                                                   [("steps", PInt 20)])]];
      reflexivity.
Defined.

(** X6.  A [node_selected_attribute] condition without [attribute_values]
    (absent or empty) never holds, where the [node_in_workflow_attribute]
    kind takes the same as "presence is enough". *)
Theorem node_selected_attribute_needs_values :
  forall condition snt sna wn wnodes,
    TriggerCondition.type condition = "node_selected_attribute" ->
    TriggerCondition.attribute_values condition = None \/
    TriggerCondition.attribute_values condition = Some [] ->
    _check_trigger_condition condition snt sna wn wnodes = Ok false.
Proof.
  intros condition snt sna wn wnodes Hkind Hvalues.
  unfold _check_trigger_condition. rewrite Hkind. simpl.
  destruct (opt_str_eqb _ _); [|reflexivity].
  destruct sna as [attributes|]; [|reflexivity].
  destruct (TriggerCondition.attribute_name condition) as [name|]; [|reflexivity].
  destruct Hvalues as [Hvalues | Hvalues]; rewrite Hvalues;
    destruct (dict_get name attributes); reflexivity.
Qed.

Lemma node_selected_attribute_needs_values_witness :
  _check_trigger_condition
    (TriggerCondition.mk "node_selected_attribute" None (Some "KSampler") (Some "steps")
       (Some []) None)
    (Some "KSampler") (Some [("steps", PInt 20)]) None None = Ok false.
Proof.
  apply node_selected_attribute_needs_values.
  - reflexivity.
  - right. reflexivity.
Defined.

(* ================================================================= *)
(** ** More on note selection *)

(** X7.  On a context of the declared shape the automatic mode returns
    exactly the stored notes that are pinned or have a condition that
    holds, in storage order. *)
Theorem automatic_mode_filters_the_store :
  forall self mode snt sna wn wnodes,
    mode <> "all" ->
    attribute_maps wnodes = true ->
    get_notes_for_display self mode snt sna wn wnodes
    = Ok (filter (displayed snt sna wn wnodes)
            (dict_values (AutoNotesManager.notes self))).
Proof.
  intros self mode snt sna wn wnodes Hmode Hmaps.
  rewrite automatic_mode by assumption.
  now rewrite matching_loop_returns.
Qed.

Lemma automatic_mode_filters_the_store_witness :
  get_notes_for_display sample_manager "automatic" None None None None
  = Ok [sample_pinned].
Proof.
  apply (automatic_mode_filters_the_store sample_manager "automatic" None None None None).
  - discriminate.
  - reflexivity.
Defined.

(* ================================================================= *)
(** ** More on dicts *)

Lemma dict_get_setitem_same : forall A k (v : A) (d : dict A),
  dict_get k (dict_setitem k v d) = Some v.
Proof.
  induction d as [|[k' v'] d IH]; simpl.
  - now rewrite String.eqb_refl.
  - destruct (String.eqb_spec k' k) as [->|Hne]; simpl.
    + now rewrite String.eqb_refl.
    + apply String.eqb_neq in Hne. now rewrite Hne.
Qed.

Lemma dict_get_setitem_other : forall A k k' (v : A) (d : dict A),
  k' <> k -> dict_get k' (dict_setitem k v d) = dict_get k' d.
Proof.
  induction d as [|[k0 v0] d IH]; simpl; intros Hne.
  - assert (H : (k =? k')%string = false) by (apply String.eqb_neq; congruence).
    now rewrite H.
  - destruct (String.eqb_spec k0 k) as [->|Hne0]; simpl.
    + assert (H : (k =? k')%string = false) by (apply String.eqb_neq; congruence).
      now rewrite H.
    + destruct (k0 =? k')%string; [reflexivity | now apply IH].
Qed.

Lemma dict_get_delitem_other : forall A k k' (d : dict A),
  k' <> k -> dict_get k' (dict_delitem k d) = dict_get k' d.
Proof.
  induction d as [|[k0 v0] d IH]; simpl; intros Hne; [reflexivity|].
  destruct (String.eqb_spec k0 k) as [->|Hne0]; simpl.
  - assert (H : (k =? k')%string = false) by (apply String.eqb_neq; congruence).
    now rewrite H.
  - destruct (k0 =? k')%string; [reflexivity | now apply IH].
Qed.

Lemma dict_delitem_setitem_absent : forall A k (v : A) (d : dict A),
  ~ In k (dict_keys d) -> dict_delitem k (dict_setitem k v d) = d.
Proof.
  induction d as [|[k' v'] d IH]; simpl; intros Hk.
  - now rewrite String.eqb_refl.
  - destruct (String.eqb_spec k' k) as [->|Hne].
    + exfalso. apply Hk. now left.
    + simpl. apply String.eqb_neq in Hne. rewrite Hne.
      rewrite IH; [reflexivity|]. intros Hin. apply Hk. now right.
Qed.

Lemma dict_delitem_Subseq : forall A k (d : dict A),
  Subseq (dict_delitem k d) d.
Proof.
  induction d as [|[k' v'] d IH]; simpl; [constructor|].
  destruct (k' =? k)%string.
  - constructor. clear IH. induction d; now constructor.
  - now constructor.
Qed.

Lemma dict_get_keys : forall A k (d : dict A) v,
  dict_get k d = Some v -> In k (dict_keys d).
Proof.
  induction d as [|[k' v'] d IH]; simpl; intros v H; [discriminate|].
  destruct (String.eqb_spec k' k) as [->|Hne]; [now left | right; eauto].
Qed.

Lemma keyed_get : forall A (key_of : A -> string) k (d : dict A) v,
  keyed_by key_of d -> dict_get k d = Some v -> key_of v = k.
Proof.
  intros A key_of k d v [_ Hkeys]. induction Hkeys as [|[k' v'] d Hk _ IH]; simpl.
  - discriminate.
  - simpl in Hk. destruct (String.eqb_spec k' k) as [->|Hne].
    + intros H. inversion H; subst. now symmetry.
    + exact IH.
Qed.

Lemma keyed_values_keys : forall A (key_of : A -> string) (d : dict A),
  keyed_by key_of d -> map key_of (dict_values d) = dict_keys d.
Proof.
  intros A key_of d [_ Hkeys]. unfold dict_keys, dict_values. rewrite map_map.
  induction Hkeys as [|entry d Hk _ IH]; simpl; [reflexivity|].
  now rewrite IH, Hk.
Qed.

Lemma dict_setitem_length : forall A k (v : A) (d : dict A),
  (In k (dict_keys d) -> List.length (dict_setitem k v d) = List.length d)
  /\ (~ In k (dict_keys d) -> List.length (dict_setitem k v d) = S (List.length d)).
Proof.
  induction d as [|[k' v'] d [IHin IHout]]; simpl; split; intros H.
  - contradiction.
  - reflexivity.
  - destruct (String.eqb_spec k' k) as [->|Hne]; simpl; [reflexivity|].
    f_equal. apply IHin. destruct H; [contradiction | assumption].
  - destruct (String.eqb_spec k' k) as [->|Hne]; simpl.
    + exfalso. apply H. now left.
    + f_equal. apply IHout. intros Hin. apply H. now right.
Qed.

Lemma dict_setitem_keyed_NoDup : forall A k (v : A) (d : dict A),
  NoDup (dict_keys d) -> NoDup (dict_keys (dict_setitem k v d)).
Proof.
  intros A k v d Hnd.
  destruct (in_dec string_dec k (dict_keys d)) as [Hin|Hout].
  - now rewrite dict_setitem_keys.
  - rewrite dict_setitem_absent by assumption. unfold dict_keys.
    rewrite map_app. simpl. now apply NoDup_snoc.
Qed.

(* ================================================================= *)
(** ** More on loading *)



Lemma load_notes_loop_snapshot_length : forall records notes,
  exists loaded,
    load_notes_loop
      (map (fun note =>
              PDict (dict_setitem "trigger_conditions"
                       (PList (map (fun tc => PDict (asdict_TriggerCondition tc))
                                 (Note.trigger_conditions note)))
                       (asdict_Note note)))
         records) notes = Ok loaded
    /\ List.length loaded <= List.length notes + List.length records
    /\ (NoDup (dict_keys notes) ->
        ~ NoDup (dict_keys notes ++ map Note.uuid records) ->
        List.length loaded < List.length notes + List.length records).
Proof.
  induction records as [|note records IH]; intros notes; cbn [map load_notes_loop].
  - exists notes. simpl. repeat split; [lia|].
    intros Hnd Hdup. rewrite app_nil_r in Hdup. contradiction.
  - rewrite load_note_asdict. cbn [bind].
    destruct (IH (dict_setitem (Note.uuid note) note notes))
      as [loaded [Hload [Hle Hlt]]].
    exists loaded. split; [exact Hload|].
    destruct (dict_setitem_length _ (Note.uuid note) note notes) as [Hin Hout].
    destruct (in_dec string_dec (Note.uuid note) (dict_keys notes)) as [Hk|Hk].
    + rewrite (Hin Hk) in Hle. simpl. split; intros; lia.
    + rewrite (Hout Hk) in Hle, Hlt. simpl. split; [lia|].
      intros Hnd Hdup.
      assert (List.length loaded < S (List.length notes) + List.length records);
        [|lia].
      apply Hlt.
      * now apply dict_setitem_keyed_NoDup.
      * rewrite dict_setitem_absent by assumption.
        unfold dict_keys. rewrite map_app, <- app_assoc. exact Hdup.
Qed.

(** X9.  Loading the file [_save_notes] wrote always returns a store, and
    it returns the saved records exactly when their identifiers are
    pairwise distinct; when two records share an identifier the loaded
    store has fewer notes than were saved. *)
Theorem saved_notes_reload_iff_unique_ids :
  forall self,
    exists loaded,
      _load_notes (Document (notes_snapshot self)) = Ok loaded
      /\ (dict_values loaded = dict_values (AutoNotesManager.notes self)
          <-> NoDup (map Note.uuid (dict_values (AutoNotesManager.notes self))))
      /\ (~ NoDup (map Note.uuid (dict_values (AutoNotesManager.notes self))) ->
          List.length loaded < List.length (AutoNotesManager.notes self)).
Proof.
  intros self.
  destruct (load_notes_loop_snapshot_length
              (dict_values (AutoNotesManager.notes self)) [])
    as [loaded [Hload [_ Hlt]]].
  exists loaded. split; [|split].
  - unfold _load_notes, notes_snapshot. simpl. simpl in Hload.
    rewrite Hload. reflexivity.
  - split.
    + intros Hsame. rewrite <- Hsame.
      apply keyed_values_NoDup.
      eapply load_notes_loop_keyed; [apply keyed_by_nil | exact Hload].
    + intros Hnd. rewrite load_notes_loop_snapshot in Hload by exact Hnd.
      inversion Hload. simpl. unfold dict_values. rewrite !map_map. reflexivity.
  - intros Hdup. simpl in Hlt. unfold dict_values in Hlt at 2.
    rewrite length_map in Hlt. apply Hlt; [constructor | exact Hdup].
Qed.

Lemma load_notes_loop_rejects : forall data bad e,
  In bad data -> load_note bad = Raise e ->
  forall notes loaded, load_notes_loop data notes <> Ok loaded.
Proof.
  induction data as [|note_data data IH]; intros bad e Hin Hbad notes loaded;
    [contradiction|].
  simpl. destruct Hin as [->|Hin].
  - rewrite Hbad. discriminate.
  - destruct (load_note note_data) as [note| |]; simpl; try discriminate.
    eapply IH; eassumption.
Qed.

(** X10.  One record that the loader's constructors reject is enough for
    the whole file to load as an empty store: the records before and after
    it are dropped with it. *)
Theorem rejected_record_empties_the_load :
  forall data bad e loaded,
    In bad data ->
    load_note bad = Raise e ->
    _load_notes (Document (PList data)) = Ok loaded ->
    loaded = [].
Proof.
  intros data bad e loaded Hin Hbad. simpl.
  destruct (load_notes_loop data []) as [notes|e'|] eqn:Hloop; simpl.
  - exfalso. eapply load_notes_loop_rejects; eassumption.
  - intros H. now inversion H.
  - discriminate.
Qed.

Lemma rejected_record_empties_the_load_witness :
  _load_notes
    (Document
       (PList [PDict (asdict_Note sample_note);
               PDict (("color", PStr "red") :: asdict_Note sample_pinned)]))
  = Ok []
  /\ ([] : dict Note.t) = [].
Proof.
  split; [reflexivity|].
  apply (rejected_record_empties_the_load
           [PDict (asdict_Note sample_note);
            PDict (("color", PStr "red") :: asdict_Note sample_pinned)]
           (PDict (("color", PStr "red") :: asdict_Note sample_pinned))
           TypeError []).
  - simpl. right. left. reflexivity.
  - reflexivity.
  - reflexivity.
Defined.


Lemma saved_notes_reload_iff_unique_ids_witness :
  exists loaded,
    _load_notes
      (Document
         (notes_snapshot
            (AutoNotesManager.mk [("a", sample_note); ("b", sample_note)] [])))
    = Ok loaded
    /\ List.length loaded < 2.
Proof.
  destruct (saved_notes_reload_iff_unique_ids
              (AutoNotesManager.mk [("a", sample_note); ("b", sample_note)] []))
    as [loaded [Hload [_ Hfewer]]].
  exists loaded. split; [exact Hload|].
  apply Hfewer. simpl. intros Hnd. inversion Hnd as [|x l Hout _]. apply Hout.
  left. reflexivity.
Defined.

(* ================================================================= *)
(** ** More on the mutations *)

(** X11.  [create_note] returns the identifier it was given and stores
    under it a note with that name and folder, no content, the "plaintext"
    style, no conditions, unpinned and without tags.  Every other
    identifier resolves as before, keys stay distinct, and neither the
    folders nor their file are touched, whether or not the write goes
    through. *)
Theorem create_note_then_lookup :
  forall self note_uuid name folder_uuid w d,
    exists self' d',
      create_note self note_uuid name folder_uuid w d = (Ok (note_uuid, self'), d')
      /\ dict_get note_uuid (AutoNotesManager.notes self')
         = Some (Note.mk note_uuid folder_uuid EmptyString "plaintext" [] false name [])
      /\ (forall other, other <> note_uuid ->
             dict_get other (AutoNotesManager.notes self')
             = dict_get other (AutoNotesManager.notes self))
      /\ (NoDup (dict_keys (AutoNotesManager.notes self)) ->
          NoDup (dict_keys (AutoNotesManager.notes self')))
      /\ AutoNotesManager.folders self' = AutoNotesManager.folders self
      /\ folders_file d' = folders_file d.
Proof.
  intros self note_uuid name folder_uuid w d.
  eexists. exists (snd (create_note self note_uuid name folder_uuid w d)).
  split; [destruct w; reflexivity|]. simpl. split; [|split; [|split; [|split]]].
  - apply dict_get_setitem_same.
  - intros other Hne. now apply dict_get_setitem_other.
  - apply dict_setitem_keyed_NoDup.
  - reflexivity.
  - destruct w; reflexivity.
Qed.

Lemma create_note_then_lookup_witness :
  exists self' d',
    create_note sample_manager "n3" "third" None (Failed Unparsable) empty_disk
    = (Ok ("n3", self'), d')
    /\ dict_get "n3" (AutoNotesManager.notes self')
       = Some (Note.mk "n3" None EmptyString "plaintext" [] false "third" [])
    /\ NoDup (dict_keys (AutoNotesManager.notes self')).
Proof.
  destruct (create_note_then_lookup sample_manager "n3" "third" None
              (Failed Unparsable) empty_disk)
    as [self' [d' [Hrun [Hget [_ [Hnd _]]]]]].
  exists self', d'. split; [exact Hrun|]. split; [exact Hget|].
  apply Hnd. simpl. repeat constructor; simpl; intuition discriminate.
Defined.

(** X12.  [delete_note] of an identifier the store does not have returns
    [False] and leaves manager and disk as they were.  For one it has, it
    returns [True]; the identifier no longer resolves, every other one
    resolves as before, the remaining notes keep their order, and the
    folders are not touched. *)
Theorem delete_note_removes_only_that_note :
  forall self note_uuid w d,
    NoDup (dict_keys (AutoNotesManager.notes self)) ->
    (dict_contains note_uuid (AutoNotesManager.notes self) = false ->
     delete_note self note_uuid w d = (Ok (false, self), d))
    /\ (dict_contains note_uuid (AutoNotesManager.notes self) = true ->
        exists self' d',
          delete_note self note_uuid w d = (Ok (true, self'), d')
          /\ dict_get note_uuid (AutoNotesManager.notes self') = None
          /\ (forall other, other <> note_uuid ->
                 dict_get other (AutoNotesManager.notes self')
                 = dict_get other (AutoNotesManager.notes self))
          /\ Subseq (AutoNotesManager.notes self') (AutoNotesManager.notes self)
          /\ AutoNotesManager.folders self' = AutoNotesManager.folders self
          /\ folders_file d' = folders_file d).
Proof.
  intros self note_uuid w d Hnd. unfold delete_note. split; intros Hhas; rewrite Hhas.
  - reflexivity.
  - pose proof (dict_delitem_removes _ note_uuid _ Hnd) as Hgone.
    unfold dict_contains in Hgone.
    destruct w; (eexists; eexists; split; [reflexivity|]); simpl;
      (split; [|split; [|split; [|split]]]);
      try reflexivity;
      try apply dict_delitem_Subseq;
      try (intros other Hne; now apply dict_get_delitem_other);
      now destruct (dict_get note_uuid (dict_delitem note_uuid _)).
Qed.

Lemma delete_note_removes_only_that_note_witness :
  delete_note sample_manager "n9" Written empty_disk = (Ok (false, sample_manager), empty_disk)
  /\ exists self' d',
       delete_note sample_manager "n1" Written empty_disk = (Ok (true, self'), d')
       /\ dict_get "n1" (AutoNotesManager.notes self') = None.
Proof.
  destruct (delete_note_removes_only_that_note sample_manager "n9" Written empty_disk)
    as [Hmissing _].
  { simpl. repeat constructor; simpl; intuition discriminate. }
  destruct (delete_note_removes_only_that_note sample_manager "n1" Written empty_disk)
    as [_ Hknown].
  { simpl. repeat constructor; simpl; intuition discriminate. }
  split; [apply Hmissing; reflexivity|].
  destruct (Hknown eq_refl) as [self' [d' [Hrun [Hgone _]]]].
  exists self', d'. split; assumption.
Defined.

(** X13.  Creating a note under an identifier the store does not have and
    deleting it again gives back the manager one started from. *)
Theorem create_then_delete_restores_the_manager :
  forall self note_uuid name folder_uuid w1 w2 d,
    ~ In note_uuid (dict_keys (AutoNotesManager.notes self)) ->
    exists self1 d1 d2,
      create_note self note_uuid name folder_uuid w1 d = (Ok (note_uuid, self1), d1)
      /\ delete_note self1 note_uuid w2 d1 = (Ok (true, self), d2).
Proof.
  intros [notes folders] note_uuid name folder_uuid w1 w2 d Hfresh.
  set (self1 := AutoNotesManager.mk
                  (dict_setitem note_uuid
                     (Note.mk note_uuid folder_uuid EmptyString "plaintext" [] false name [])
                     notes)
                  folders).
  set (d1 := snd (create_note (AutoNotesManager.mk notes folders) note_uuid name
                    folder_uuid w1 d)).
  exists self1, d1, (snd (delete_note self1 note_uuid w2 d1)).
  split; [destruct w1; reflexivity|].
  unfold delete_note, self1. simpl. unfold dict_contains.
  rewrite dict_get_setitem_same. simpl in Hfresh.
  rewrite dict_delitem_setitem_absent by exact Hfresh.
  destruct w2; reflexivity.
Qed.

Lemma create_then_delete_restores_the_manager_witness :
  exists self1 d1 d2,
    create_note sample_manager "n3" "third" None Written empty_disk
    = (Ok ("n3", self1), d1)
    /\ delete_note self1 "n3" Written d1 = (Ok (true, sample_manager), d2).
Proof.
  apply (create_then_delete_restores_the_manager sample_manager "n3" "third" None
           Written Written empty_disk).
  simpl. intuition discriminate.
Defined.

(* ================================================================= *)
(** ** Memory and disk after a mutation *)

Lemma init_inversion : forall d manager d',
  AutoNotesManager_init d = (Ok manager, d') ->
  d' = d
  /\ _load_notes (notes_file d) = Ok (AutoNotesManager.notes manager)
  /\ _load_folders (folders_file d) = Ok (AutoNotesManager.folders manager)
  /\ keyed_by Note.uuid (AutoNotesManager.notes manager)
  /\ keyed_by Folder.uuid (AutoNotesManager.folders manager).
Proof.
  intros d manager d' H. unfold AutoNotesManager_init in H.
  destruct (_load_notes (notes_file d)) as [notes| |] eqn:Hn; try discriminate.
  destruct (_load_folders (folders_file d)) as [folders| |] eqn:Hf; try discriminate.
  simpl in H. inversion H; subst. simpl. repeat split; try reflexivity.
  - eapply _load_notes_keyed; eassumption.
  - eapply _load_notes_keyed; eassumption.
  - eapply _load_folders_keyed; eassumption.
  - eapply _load_folders_keyed; eassumption.
Qed.

Lemma reload_after_save_notes : forall self d,
  NoDup (map Note.uuid (dict_values (AutoNotesManager.notes self))) ->
  _load_folders (folders_file d) = Ok (AutoNotesManager.folders self) ->
  AutoNotesManager_init (snd (_save_notes self Written d))
  = (Ok (AutoNotesManager.mk (rekey Note.uuid (AutoNotesManager.notes self))
           (AutoNotesManager.folders self)),
     snd (_save_notes self Written d)).
Proof.
  intros self d Hnd Hf. unfold AutoNotesManager_init, _save_notes, io_try, dump_notes_file.
  cbn [snd notes_file folders_file].
  rewrite load_saved_notes by assumption. cbn [bind]. rewrite Hf. reflexivity.
Qed.

Lemma reload_after_save_folders : forall self d,
  NoDup (map Folder.uuid (dict_values (AutoNotesManager.folders self))) ->
  _load_notes (notes_file d) = Ok (AutoNotesManager.notes self) ->
  AutoNotesManager_init (snd (_save_folders self Written d))
  = (Ok (AutoNotesManager.mk (AutoNotesManager.notes self)
           (rekey Folder.uuid (AutoNotesManager.folders self))),
     snd (_save_folders self Written d)).
Proof.
  intros self d Hnd Hn.
  unfold AutoNotesManager_init, _save_folders, io_try, dump_folders_file.
  cbn [snd notes_file folders_file]. rewrite Hn. cbn [bind].
  rewrite load_saved_folders by assumption. reflexivity.
Qed.

(** X14.  Starting from a manager that was loaded from the disk,
    [create_note], [delete_note] and [create_folder] whose write goes
    through leave a disk that loads as the very manager they leave in
    memory. *)
Theorem mutations_write_through :
  forall self d,
    AutoNotesManager_init d = (Ok self, d) ->
    (forall note_uuid name folder_uuid,
        exists self' d',
          create_note self note_uuid name folder_uuid Written d
          = (Ok (note_uuid, self'), d')
          /\ AutoNotesManager_init d' = (Ok self', d'))
    /\ (forall note_uuid,
           exists deleted self' d',
             delete_note self note_uuid Written d = (Ok (deleted, self'), d')
             /\ AutoNotesManager_init d' = (Ok self', d'))
    /\ (forall folder_uuid name parent_uuid,
           exists self' d',
             create_folder self folder_uuid name parent_uuid Written d
             = (Ok (folder_uuid, self'), d')
             /\ AutoNotesManager_init d' = (Ok self', d')).
Proof.
  intros [notes folders] d Hinit.
  destruct (init_inversion _ _ _ Hinit) as [_ [Hn [Hf [Hkn Hkf]]]]. simpl in *.
  split; [|split].
  - intros note_uuid name folder_uuid.
    set (note := Note.mk note_uuid folder_uuid EmptyString "plaintext" [] false name []).
    set (self' := AutoNotesManager.mk (dict_setitem note_uuid note notes) folders).
    assert (Hk : keyed_by Note.uuid (AutoNotesManager.notes self'))
      by (apply (dict_setitem_keyed _ Note.uuid note notes Hkn)).
    exists self', (snd (_save_notes self' Written d)).
    split; [reflexivity|].
    rewrite reload_after_save_notes.
    + rewrite rekey_keyed by exact Hk. reflexivity.
    + apply keyed_values_NoDup. exact Hk.
    + exact Hf.
  - intros note_uuid. unfold delete_note. cbn [AutoNotesManager.notes].
    destruct (dict_contains note_uuid notes).
    + set (self' := AutoNotesManager.mk (dict_delitem note_uuid notes) folders).
      assert (Hk : keyed_by Note.uuid (AutoNotesManager.notes self'))
        by now apply dict_delitem_keyed.
      exists true, self', (snd (_save_notes self' Written d)).
      split; [reflexivity|].
      rewrite reload_after_save_notes.
      * rewrite rekey_keyed by exact Hk. reflexivity.
      * apply keyed_values_NoDup. exact Hk.
      * exact Hf.
    + exists false, (AutoNotesManager.mk notes folders), d.
      split; [reflexivity | exact Hinit].
  - intros folder_uuid name parent_uuid.
    set (folder := Folder.mk folder_uuid parent_uuid name).
    set (self' := AutoNotesManager.mk notes (dict_setitem folder_uuid folder folders)).
    assert (Hk : keyed_by Folder.uuid (AutoNotesManager.folders self'))
      by (apply (dict_setitem_keyed _ Folder.uuid folder folders Hkf)).
    exists self', (snd (_save_folders self' Written d)).
    split; [reflexivity|].
    rewrite reload_after_save_folders.
    + rewrite rekey_keyed by exact Hk. reflexivity.
    + apply keyed_values_NoDup. exact Hk.
    + exact Hn.
Qed.

Lemma mutations_write_through_witness :
  exists self' d',
    create_note sample_manager "n3" "third" None Written
      (saved sample_manager Written Written empty_disk)
    = (Ok ("n3", self'), d')
    /\ AutoNotesManager_init d' = (Ok self', d').
Proof.
  apply (mutations_write_through sample_manager
           (saved sample_manager Written Written empty_disk)).
  reflexivity.
Defined.



Lemma dict_values_setitem_In : forall A k (v x : A) (d : dict A),
  In x (dict_values (dict_setitem k v d)) -> x = v \/ In x (dict_values d).
Proof.
  induction d as [|[k' v'] d IH]; simpl.
  - intros [H|[]]. now left.
  - destruct (k' =? k)%string; simpl.
    + intros [H|H]; [now left | right; now right].
    + intros [H|H]; [right; now left|].
      destruct (IH H); [now left | right; now right].
Qed.

Lemma rekey_after_uuid_change : forall (d : dict Note.t) note_uuid note renamed,
  keyed_by Note.uuid d ->
  dict_get note_uuid d = Some note ->
  ~ In (Note.uuid renamed) (dict_keys d) ->
  NoDup (map Note.uuid (dict_values (dict_setitem note_uuid renamed d)))
  /\ dict_get (Note.uuid renamed) (rekey Note.uuid (dict_setitem note_uuid renamed d))
     = Some renamed
  /\ dict_get note_uuid (rekey Note.uuid (dict_setitem note_uuid renamed d)) = None.
Proof.
  induction d as [|[k v] d IH]; intros note_uuid note renamed Hkeyed Hget Hnew;
    [discriminate|].
  destruct Hkeyed as [Hnd Hkeys].
  inversion Hnd as [|k0 l Hk Hnd' [Hk0 Hl]].
  inversion Hkeys as [|e l' Hv Hkeys' [He Hl']]. simpl in Hv.
  assert (Hrest : keyed_by Note.uuid d) by (split; assumption).
  assert (Hne : Note.uuid renamed <> note_uuid).
  { intros Heq. apply Hnew. rewrite Heq. eapply dict_get_keys. exact Hget. }
  simpl in Hget, Hnew |- *.
  destruct (String.eqb_spec k note_uuid) as [Hk'|Hk'].
  - simpl. rewrite String.eqb_refl.
    rewrite (keyed_values_keys _ Note.uuid d Hrest).
    apply String.eqb_neq in Hne. rewrite Hne.
    repeat split.
    + constructor; [|exact Hnd']. intros Hin. apply Hnew. now right.
    + fold (rekey Note.uuid d). rewrite rekey_keyed by exact Hrest.
      apply dict_get_absent. now rewrite <- Hk'.
  - assert (Hnew' : ~ In (Note.uuid renamed) (dict_keys d))
      by (intros Hin; apply Hnew; now right).
    destruct (IH note_uuid note renamed Hrest Hget Hnew') as [IHnd [IHnew IHold]].
    simpl. rewrite <- Hv.
    assert (Hkn : k <> Note.uuid renamed) by (intros Heq; apply Hnew; now left).
    assert (Hkn' : (k =? Note.uuid renamed)%string = false) by now apply String.eqb_neq.
    assert (Hk'' : (k =? note_uuid)%string = false) by now apply String.eqb_neq.
    rewrite Hkn', Hk''.
    repeat split.
    + constructor; [|exact IHnd]. intros Hin. apply in_map_iff in Hin.
      destruct Hin as [x [Hx Hin]]. apply dict_values_setitem_In in Hin.
      destruct Hin as [Heq|Hin].
      * apply Hkn. now rewrite <- Hx, Heq.
      * apply Hk. rewrite <- (keyed_values_keys _ Note.uuid d Hrest).
        apply in_map_iff. exists x. split; assumption.
    + exact IHnew.
    + exact IHold.
Qed.

(** X16.  [update_note] accepts the keyword [uuid]: the record takes the new
    identifier while the manager keeps it under the old key, and the next
    load files it under the new one.  After the reload the old identifier
    names no note. *)
Theorem changing_uuid_rekeys_on_reload :
  forall self d note_uuid note new_uuid,
    AutoNotesManager_init d = (Ok self, d) ->
    dict_get note_uuid (AutoNotesManager.notes self) = Some note ->
    ~ In new_uuid (dict_keys (AutoNotesManager.notes self)) ->
    exists renamed self' d' loaded,
      renamed = Note.mk new_uuid (Note.folder_uuid note) (Note.content note)
                  (Note.format_style note) (Note.trigger_conditions note)
                  (Note.pinned note) (Note.name note) (Note.tags note)
      /\ update_note self note_uuid [("uuid", Value (PStr new_uuid))] Written d
         = (Ok (true, self'), d')
      /\ dict_get note_uuid (AutoNotesManager.notes self') = Some renamed
      /\ dict_get new_uuid (AutoNotesManager.notes self') = None
      /\ AutoNotesManager_init d' = (Ok loaded, d')
      /\ dict_get new_uuid (AutoNotesManager.notes loaded) = Some renamed
      /\ dict_get note_uuid (AutoNotesManager.notes loaded) = None.
Proof.
  intros [notes folders] d note_uuid note new_uuid Hinit Hget Hnew.
  destruct (init_inversion _ _ _ Hinit) as [_ [Hn [Hf [Hkn Hkf]]]]. simpl in *.
  set (renamed := Note.mk new_uuid (Note.folder_uuid note) (Note.content note)
                    (Note.format_style note) (Note.trigger_conditions note)
                    (Note.pinned note) (Note.name note) (Note.tags note)).
  set (self' := AutoNotesManager.mk (dict_setitem note_uuid renamed notes) folders).
  destruct (rekey_after_uuid_change notes note_uuid note renamed Hkn Hget Hnew)
    as [Hnd [Hfound Hgone]].
  assert (Hne : new_uuid <> note_uuid).
  { intros ->. apply Hnew. eapply dict_get_keys. exact Hget. }
  exists renamed, self', (snd (_save_notes self' Written d)),
    (AutoNotesManager.mk (rekey Note.uuid (AutoNotesManager.notes self')) folders).
  split; [reflexivity|]. split; [|split; [|split; [|split]]].
  - unfold update_note. cbn [AutoNotesManager.notes]. rewrite Hget.
    destruct note; reflexivity.
  - apply dict_get_setitem_same.
  - cbn [AutoNotesManager.notes self'].
    rewrite dict_get_setitem_other by exact Hne. now apply dict_get_absent.
  - now apply reload_after_save_notes.
  - split; assumption.
Qed.

Lemma changing_uuid_rekeys_on_reload_witness :
  exists renamed self' d' loaded,
    renamed = Note.mk "n7" (Note.folder_uuid sample_note) (Note.content sample_note)
                (Note.format_style sample_note) (Note.trigger_conditions sample_note)
                (Note.pinned sample_note) (Note.name sample_note) (Note.tags sample_note)
    /\ update_note sample_manager "n1" [("uuid", Value (PStr "n7"))] Written
         (saved sample_manager Written Written empty_disk)
       = (Ok (true, self'), d')
    /\ dict_get "n1" (AutoNotesManager.notes self') = Some renamed
    /\ dict_get "n7" (AutoNotesManager.notes self') = None
    /\ AutoNotesManager_init d' = (Ok loaded, d')
    /\ dict_get "n7" (AutoNotesManager.notes loaded) = Some renamed
    /\ dict_get "n1" (AutoNotesManager.notes loaded) = None.
Proof.
  apply (changing_uuid_rekeys_on_reload sample_manager
           (saved sample_manager Written Written empty_disk) "n1" sample_note "n7").
  - reflexivity.
  - reflexivity.
  - simpl. intuition discriminate.
Defined.

(* ================================================================= *)
(** ** More on deleting a folder *)

Lemma delete_folder_run : forall folder_uuid manager d w_notes w_folders,
  AutoNotesManager_init d = (Ok manager, d) ->
  dict_contains folder_uuid (AutoNotesManager.folders manager) = true ->
  delete_folder folder_uuid w_notes w_folders d
  = (Ok (json_response 200 (Some true)),
     snd (_save_folders
            (AutoNotesManager.mk
               (map (fun entry => (fst entry, unfile folder_uuid (snd entry)))
                  (AutoNotesManager.notes manager))
               (dict_delitem folder_uuid (AutoNotesManager.folders manager)))
            w_folders
            (snd (_save_notes
                    (AutoNotesManager.mk
                       (map (fun entry => (fst entry, unfile folder_uuid (snd entry)))
                          (AutoNotesManager.notes manager))
                       (AutoNotesManager.folders manager))
                    w_notes d)))).
Proof.
  intros folder_uuid manager d w_notes w_folders Hinit Hhas.
  unfold delete_folder, io_try, io_bind. rewrite Hinit, Hhas.
  destruct w_notes, w_folders; reflexivity.
Qed.

(** X17.  Deleting a folder rewrites notes only: every other folder is
    stored as it was, so a folder whose [parent_uuid] names the deleted one
    keeps that reference. *)
Theorem delete_folder_keeps_the_other_folders :
  forall folder_uuid manager d other folder,
    AutoNotesManager_init d = (Ok manager, d) ->
    dict_contains folder_uuid (AutoNotesManager.folders manager) = true ->
    other <> folder_uuid ->
    dict_get other (AutoNotesManager.folders manager) = Some folder ->
    exists d' manager',
      delete_folder folder_uuid Written Written d
      = (Ok (json_response 200 (Some true)), d')
      /\ AutoNotesManager_init d' = (Ok manager', d')
      /\ dict_get other (AutoNotesManager.folders manager') = Some folder.
Proof.
  intros folder_uuid [notes folders] d other folder Hinit Hhas Hother Hget.
  destruct (init_inversion _ _ _ Hinit) as [_ [Hn [Hf [Hkn Hkf]]]]. simpl in *.
  set (notes' := map (fun entry => (fst entry, unfile folder_uuid (snd entry))) notes).
  set (manager1 := AutoNotesManager.mk notes' folders).
  set (manager2 := AutoNotesManager.mk notes' (dict_delitem folder_uuid folders)).
  assert (Hkn' : keyed_by Note.uuid notes') by now apply unfile_keyed.
  assert (Hkf' : keyed_by Folder.uuid (dict_delitem folder_uuid folders))
    by now apply dict_delitem_keyed.
  exists (snd (_save_folders manager2 Written (snd (_save_notes manager1 Written d)))),
         manager2.
  split; [|split].
  - now rewrite (delete_folder_run folder_uuid _ d Written Written Hinit Hhas).
  - rewrite reload_after_save_folders.
    + cbn [AutoNotesManager.notes AutoNotesManager.folders manager2].
      rewrite rekey_keyed by exact Hkf'. reflexivity.
    + apply keyed_values_NoDup. exact Hkf'.
    + cbn [_save_notes io_try dump_notes_file snd notes_file manager2
             AutoNotesManager.notes].
      change (Document (notes_snapshot manager1))
        with (Document (notes_snapshot (AutoNotesManager.mk notes' folders))).
      rewrite load_saved_notes by (apply keyed_values_NoDup; exact Hkn').
      cbn [AutoNotesManager.notes]. now rewrite rekey_keyed.
  - cbn [AutoNotesManager.folders manager2].
    rewrite dict_get_delitem_other by exact Hother. exact Hget.
Qed.

Lemma delete_folder_keeps_the_other_folders_witness :
  exists d' manager',
    delete_folder "f1" Written Written
      (saved (AutoNotesManager.mk []
                [("f1", sample_folder); ("f2", Folder.mk "f2" (Some "f1") "sub")])
         Written Written empty_disk)
    = (Ok (json_response 200 (Some true)), d')
    /\ AutoNotesManager_init d' = (Ok manager', d')
    /\ dict_get "f2" (AutoNotesManager.folders manager')
       = Some (Folder.mk "f2" (Some "f1") "sub").
Proof.
  apply (delete_folder_keeps_the_other_folders "f1"
           (AutoNotesManager.mk []
              [("f1", sample_folder); ("f2", Folder.mk "f2" (Some "f1") "sub")])).
  - reflexivity.
  - reflexivity.
  - discriminate.
  - reflexivity.
Defined.

(** X18.  The two writes of the route are independent.  When the notes are
    written and the write of the folders fails, leaving the old file, the
    route still answers success; a manager loaded afterwards has the notes
    unfiled and the folder still in place. *)
Theorem delete_folder_is_not_atomic :
  forall folder_uuid manager d,
    AutoNotesManager_init d = (Ok manager, d) ->
    dict_contains folder_uuid (AutoNotesManager.folders manager) = true ->
    exists d' manager',
      delete_folder folder_uuid Written (Failed (folders_file d)) d
      = (Ok (json_response 200 (Some true)), d')
      /\ AutoNotesManager_init d' = (Ok manager', d')
      /\ AutoNotesManager.notes manager'
         = map (fun entry => (fst entry, unfile folder_uuid (snd entry)))
             (AutoNotesManager.notes manager)
      /\ AutoNotesManager.folders manager' = AutoNotesManager.folders manager
      /\ dict_contains folder_uuid (AutoNotesManager.folders manager') = true.
Proof.
  intros folder_uuid [notes folders] d Hinit Hhas.
  destruct (init_inversion _ _ _ Hinit) as [_ [Hn [Hf [Hkn Hkf]]]]. simpl in *.
  set (notes' := map (fun entry => (fst entry, unfile folder_uuid (snd entry))) notes).
  set (manager1 := AutoNotesManager.mk notes' folders).
  assert (Hkn' : keyed_by Note.uuid notes') by now apply unfile_keyed.
  exists (snd (_save_notes manager1 Written d)), manager1.
  split; [|split; [|split; [|split]]].
  - rewrite (delete_folder_run folder_uuid _ d Written (Failed (folders_file d)) Hinit Hhas).
    reflexivity.
  - rewrite reload_after_save_notes.
    + cbn [AutoNotesManager.notes AutoNotesManager.folders manager1].
      now rewrite rekey_keyed.
    + apply keyed_values_NoDup. exact Hkn'.
    + exact Hf.
  - reflexivity.
  - reflexivity.
  - exact Hhas.
Qed.

Lemma delete_folder_is_not_atomic_witness :
  exists d' manager',
    delete_folder "f1" Written
      (Failed (folders_file (saved sample_manager Written Written empty_disk)))
      (saved sample_manager Written Written empty_disk)
    = (Ok (json_response 200 (Some true)), d')
    /\ AutoNotesManager_init d' = (Ok manager', d')
    /\ AutoNotesManager.notes manager'
       = map (fun entry => (fst entry, unfile "f1" (snd entry)))
           (AutoNotesManager.notes sample_manager)
    /\ AutoNotesManager.folders manager' = AutoNotesManager.folders sample_manager
    /\ dict_contains "f1" (AutoNotesManager.folders manager') = true.
Proof.
  apply (delete_folder_is_not_atomic "f1" sample_manager
           (saved sample_manager Written Written empty_disk)).
  - reflexivity.
  - reflexivity.
Defined.

(* ================================================================= *)
(** ** The routes *)





Lemma update_folder_shape : forall manager d folder_uuid body w r d',
  AutoNotesManager_init d = (Ok manager, d) ->
  Routes.update_folder folder_uuid body w d = (Ok r, d') ->
  d' = d
  \/ exists folder name parent_uuid,
       dict_get folder_uuid (AutoNotesManager.folders manager) = Some folder
       /\ r = json_ok (PDict [("success", PBool true)])
       /\ d' = snd (_save_folders
                      (AutoNotesManager.mk
                         (AutoNotesManager.notes manager)
                         (dict_setitem folder_uuid
                            (Folder.mk (Folder.uuid folder) parent_uuid name)
                            (AutoNotesManager.folders manager)))
                      w d).
Proof.
  intros manager d folder_uuid body w r d' Hinit.
  unfold Routes.update_folder, route, io_try, io_bind, lift, ret. rewrite Hinit.
  destruct body as [|data]; [intros H; inversion H; now left|].
  destruct (dict_get folder_uuid (AutoNotesManager.folders manager)) as [folder|];
    [|intros H; inversion H; now left].
  destruct (py_contains "name" data) as [has_name| |];
    [|intros H; inversion H; now left | discriminate].
  destruct (if has_name
            then bind (py_getitem data "name") (fun v => as_str v)
            else Ok (Folder.name folder)) as [name| |];
    [|intros H; inversion H; now left | discriminate].
  destruct (py_contains "parent_uuid" data) as [has_parent| |];
    [|intros H; inversion H; now left | discriminate].
  destruct (if has_parent
            then bind (py_getitem data "parent_uuid") (fun v => as_opt_str v)
            else Ok (Folder.parent_uuid folder)) as [parent_uuid| |];
    [|intros H; inversion H; now left | discriminate].
  intros H. right. exists folder, name, parent_uuid.
  split; [reflexivity|]. destruct w; inversion H; split; reflexivity.
Qed.

(** X21.  [PUT /autonotes/folders/{folder_uuid}] never creates, removes or
    renames an identifier: whatever the body, when the route answers and
    its write goes through, a manager loaded afterwards has the same notes
    and the same folder identifiers in the same order as the one loaded
    before. *)
Theorem update_folder_keeps_the_identifiers :
  forall manager d folder_uuid body r d' manager',
    AutoNotesManager_init d = (Ok manager, d) ->
    Routes.update_folder folder_uuid body Written d = (Ok r, d') ->
    AutoNotesManager_init d' = (Ok manager', d') ->
    AutoNotesManager.notes manager' = AutoNotesManager.notes manager
    /\ dict_keys (AutoNotesManager.folders manager')
       = dict_keys (AutoNotesManager.folders manager).
Proof.
  intros [notes folders] d folder_uuid body r d' manager' Hinit Hrun Hreload.
  destruct (init_inversion _ _ _ Hinit) as [_ [Hn [Hf [Hkn Hkf]]]]. simpl in *.
  destruct (update_folder_shape _ _ _ _ _ _ _ Hinit Hrun)
    as [-> | [folder [name [parent_uuid [Hget [_ ->]]]]]].
  - rewrite Hinit in Hreload. inversion Hreload. split; reflexivity.
  - simpl in Hget.
    assert (Hid : Folder.uuid folder = folder_uuid) by (eapply keyed_get; eassumption).
    set (folder' := Folder.mk (Folder.uuid folder) parent_uuid name) in *.
    assert (Hk : keyed_by Folder.uuid (dict_setitem folder_uuid folder' folders)).
    { rewrite <- Hid. apply (dict_setitem_keyed _ Folder.uuid folder' folders Hkf). }
    rewrite reload_after_save_folders in Hreload.
    + inversion Hreload. simpl. split; [reflexivity|].
      rewrite rekey_keyed by exact Hk.
      apply dict_setitem_keys. eapply dict_get_keys. exact Hget.
    + apply keyed_values_NoDup. exact Hk.
    + exact Hn.
Qed.

Lemma update_folder_keeps_the_identifiers_witness :
  AutoNotesManager.notes
    (AutoNotesManager.mk (AutoNotesManager.notes sample_manager)
       [("f1", Folder.mk "f1" (Some "f1") "renamed")])
  = AutoNotesManager.notes sample_manager
  /\ dict_keys [("f1", Folder.mk "f1" (Some "f1") "renamed")]
     = dict_keys (AutoNotesManager.folders sample_manager).
Proof.
  apply (update_folder_keeps_the_identifiers sample_manager
           (saved sample_manager Written Written empty_disk) "f1"
           (JsonBody (PDict [("name", PStr "renamed"); ("parent_uuid", PStr "f1");
                             ("uuid", PStr "zz")]))
           (json_ok (PDict [("success", PBool true)]))
           (snd (Routes.update_folder "f1"
                   (JsonBody (PDict [("name", PStr "renamed"); ("parent_uuid", PStr "f1");
                                     ("uuid", PStr "zz")]))
                   Written (saved sample_manager Written Written empty_disk)))).
  - reflexivity.
  - reflexivity.
  - reflexivity.
Defined.

(** X22.  [PUT /autonotes/folders/{folder_uuid}] stores whatever parent the
    body names, without looking it up: the folder itself and identifiers
    that name no folder are accepted like any other. *)
Theorem update_folder_accepts_any_parent :
  forall manager d folder_uuid folder parent,
    AutoNotesManager_init d = (Ok manager, d) ->
    dict_get folder_uuid (AutoNotesManager.folders manager) = Some folder ->
    exists d' manager',
      Routes.update_folder folder_uuid
        (JsonBody (PDict [("parent_uuid", PStr parent)])) Written d
      = (Ok (json_ok (PDict [("success", PBool true)])), d')
      /\ AutoNotesManager_init d' = (Ok manager', d')
      /\ dict_get folder_uuid (AutoNotesManager.folders manager')
         = Some (Folder.mk (Folder.uuid folder) (Some parent) (Folder.name folder)).
Proof.
  intros [notes folders] d folder_uuid folder parent Hinit Hget.
  destruct (init_inversion _ _ _ Hinit) as [_ [Hn [Hf [Hkn Hkf]]]]. simpl in *.
  assert (Hid : Folder.uuid folder = folder_uuid) by (eapply keyed_get; eassumption).
  set (folder' := Folder.mk (Folder.uuid folder) (Some parent) (Folder.name folder)).
  set (self' := AutoNotesManager.mk notes (dict_setitem folder_uuid folder' folders)).
  assert (Hk : keyed_by Folder.uuid (AutoNotesManager.folders self')).
  { unfold self'. cbn [AutoNotesManager.folders]. rewrite <- Hid.
    apply (dict_setitem_keyed _ Folder.uuid folder' folders Hkf). }
  exists (snd (_save_folders self' Written d)), self'.
  split; [|split].
  - unfold Routes.update_folder, route, io_try, io_bind, lift, ret.
    rewrite Hinit. cbn [AutoNotesManager.folders]. rewrite Hget. reflexivity.
  - rewrite reload_after_save_folders.
    + rewrite rekey_keyed by exact Hk. reflexivity.
    + apply keyed_values_NoDup. exact Hk.
    + exact Hn.
  - apply dict_get_setitem_same.
Qed.

Lemma update_folder_accepts_any_parent_witness :
  exists d' manager',
    Routes.update_folder "f1" (JsonBody (PDict [("parent_uuid", PStr "f1")])) Written
      (saved sample_manager Written Written empty_disk)
    = (Ok (json_ok (PDict [("success", PBool true)])), d')
    /\ AutoNotesManager_init d' = (Ok manager', d')
    /\ dict_get "f1" (AutoNotesManager.folders manager')
       = Some (Folder.mk "f1" (Some "f1") "inbox").
Proof.
  apply (update_folder_accepts_any_parent sample_manager
           (saved sample_manager Written Written empty_disk) "f1" sample_folder "f1").
  - reflexivity.
  - reflexivity.
Defined.

(** X23.  [POST /autonotes/notes] with an object as body answers with the
    new identifier; a manager loaded afterwards holds under it an empty
    note whose name is the body's [name], or "New Note" when the body has
    none, and whose folder is the body's [folder_uuid] as given, whether or
    not a folder of that identifier exists. *)
Theorem create_note_route_stores_the_note :
  forall manager d note_uuid data name folder_uuid,
    AutoNotesManager_init d = (Ok manager, d) ->
    keyword data "name" as_str "New Note" = Ok name ->
    keyword data "folder_uuid" as_opt_str None = Ok folder_uuid ->
    exists d' manager',
      Routes.create_note note_uuid (JsonBody (PDict data)) Written d
      = (Ok (json_ok (PDict [("uuid", PStr note_uuid)])), d')
      /\ AutoNotesManager_init d' = (Ok manager', d')
      /\ dict_get note_uuid (AutoNotesManager.notes manager')
         = Some (Note.mk note_uuid folder_uuid EmptyString "plaintext" [] false name [])
      /\ (dict_get "name" data = None -> name = "New Note").
Proof.
  intros [notes folders] d note_uuid data name folder_uuid Hinit Hname Hfolder.
  destruct (init_inversion _ _ _ Hinit) as [_ [Hn [Hf [Hkn Hkf]]]]. simpl in *.
  set (note := Note.mk note_uuid folder_uuid EmptyString "plaintext" [] false name []).
  set (self' := AutoNotesManager.mk (dict_setitem note_uuid note notes) folders).
  assert (Hk : keyed_by Note.uuid (AutoNotesManager.notes self'))
    by (apply (dict_setitem_keyed _ Note.uuid note notes Hkn)).
  exists (snd (_save_notes self' Written d)), self'.
  split; [|split; [|split]].
  - unfold Routes.create_note, route, io_try, io_bind, lift, ret.
    rewrite Hinit, Hname, Hfolder. reflexivity.
  - rewrite reload_after_save_notes.
    + rewrite rekey_keyed by exact Hk. reflexivity.
    + apply keyed_values_NoDup. exact Hk.
    + exact Hf.
  - apply dict_get_setitem_same.
  - intros Hnone. unfold keyword in Hname. rewrite Hnone in Hname. now inversion Hname.
Qed.

Lemma create_note_route_stores_the_note_witness :
  exists d' manager',
    Routes.create_note "n3" (JsonBody (PDict [("folder_uuid", PStr "nowhere")])) Written
      (saved sample_manager Written Written empty_disk)
    = (Ok (json_ok (PDict [("uuid", PStr "n3")])), d')
    /\ AutoNotesManager_init d' = (Ok manager', d')
    /\ dict_get "n3" (AutoNotesManager.notes manager')
       = Some (Note.mk "n3" (Some "nowhere") EmptyString "plaintext" [] false "New Note" [])
    /\ (dict_get "name" [("folder_uuid", PStr "nowhere")] = None -> "New Note" = "New Note").
Proof.
  apply (create_note_route_stores_the_note sample_manager
           (saved sample_manager Written Written empty_disk) "n3"
           [("folder_uuid", PStr "nowhere")] "New Note" (Some "nowhere")).
  - reflexivity.
  - reflexivity.
  - reflexivity.
Defined.

(** X24.  The two [POST] routes read their body with [data.get], which only
    an object has: for any other JSON value, and for text that is not JSON,
    they answer with status 500 and write nothing. *)
Theorem create_routes_need_an_object :
  forall manager d fresh body w,
    AutoNotesManager_init d = (Ok manager, d) ->
    body = BadJson \/ (exists data, body = JsonBody data /\ is_dict data = false) ->
    Routes.create_note fresh body w d = (Ok server_error, d)
    /\ Routes.create_folder fresh body w d = (Ok server_error, d).
Proof.
  intros manager d fresh body w Hinit Hbody.
  unfold Routes.create_note, Routes.create_folder, route, io_try, io_bind, lift, ret.
  rewrite Hinit.
  destruct Hbody as [-> | [data [-> Hshape]]]; [split; reflexivity|].
  destruct data; try discriminate; split; reflexivity.
Qed.

Lemma create_routes_need_an_object_witness :
  Routes.create_note "n3" (JsonBody (PList [PStr "name"])) Written
    (saved sample_manager Written Written empty_disk)
  = (Ok server_error, saved sample_manager Written Written empty_disk)
  /\ Routes.create_folder "n3" (JsonBody (PList [PStr "name"])) Written
       (saved sample_manager Written Written empty_disk)
     = (Ok server_error, saved sample_manager Written Written empty_disk).
Proof.
  apply (create_routes_need_an_object sample_manager).
  - reflexivity.
  - right. exists (PList [PStr "name"]). split; reflexivity.
Defined.

(** X25.  [PUT /autonotes/notes/{note_uuid}] turns the [trigger_conditions]
    of the body into conditions before it updates: with the conditions in
    the form [asdict] gives them, the route answers success and a manager
    loaded afterwards holds the note with exactly these conditions and its
    other fields as they were. *)
Theorem update_note_route_stores_the_conditions :
  forall manager d note_uuid note tcs,
    AutoNotesManager_init d = (Ok manager, d) ->
    dict_get note_uuid (AutoNotesManager.notes manager) = Some note ->
    exists d' manager',
      Routes.update_note note_uuid
        (JsonBody
           (PDict [("trigger_conditions",
                    PList (map (fun tc => PDict (asdict_TriggerCondition tc)) tcs))]))
        Written d
      = (Ok (json_ok (PDict [("success", PBool true)])), d')
      /\ AutoNotesManager_init d' = (Ok manager', d')
      /\ dict_get note_uuid (AutoNotesManager.notes manager')
         = Some (Note.mk (Note.uuid note) (Note.folder_uuid note) (Note.content note)
                   (Note.format_style note) tcs (Note.pinned note) (Note.name note)
                   (Note.tags note)).
Proof.
  intros [notes folders] d note_uuid note tcs Hinit Hget.
  destruct (init_inversion _ _ _ Hinit) as [_ [Hn [Hf [Hkn Hkf]]]]. simpl in *.
  assert (Hid : Note.uuid note = note_uuid) by (eapply keyed_get; eassumption).
  set (note' := Note.mk (Note.uuid note) (Note.folder_uuid note) (Note.content note)
                  (Note.format_style note) tcs (Note.pinned note) (Note.name note)
                  (Note.tags note)).
  set (self' := AutoNotesManager.mk (dict_setitem note_uuid note' notes) folders).
  assert (Hk : keyed_by Note.uuid (AutoNotesManager.notes self')).
  { unfold self'. cbn [AutoNotesManager.notes]. rewrite <- Hid.
    apply (dict_setitem_keyed _ Note.uuid note' notes Hkn). }
  exists (snd (_save_notes self' Written d)), self'.
  split; [|split].
  - unfold Routes.update_note, route, io_try, io_bind, lift, ret. rewrite Hinit.
    cbn [py_contains dict_contains dict_get String.eqb Ascii.eqb Bool.eqb bind
           py_getitem py_iter].
    rewrite load_conditions_asdict.
    cbn [bind as_kwargs dict_contains dict_get String.eqb Ascii.eqb Bool.eqb orb map
           fst snd].
    unfold update_note. cbn [AutoNotesManager.notes]. rewrite Hget.
    unfold io_bind, lift. destruct note. reflexivity.
  - rewrite reload_after_save_notes.
    + rewrite rekey_keyed by exact Hk. reflexivity.
    + apply keyed_values_NoDup. exact Hk.
    + exact Hf.
  - apply dict_get_setitem_same.
Qed.

Lemma update_note_route_stores_the_conditions_witness :
  exists d' manager',
    Routes.update_note "n2"
      (JsonBody
         (PDict [("trigger_conditions",
                  PList (map (fun tc => PDict (asdict_TriggerCondition tc))
                           (Note.trigger_conditions sample_note)))]))
      Written (saved sample_manager Written Written empty_disk)
    = (Ok (json_ok (PDict [("success", PBool true)])), d')
    /\ AutoNotesManager_init d' = (Ok manager', d')
    /\ dict_get "n2" (AutoNotesManager.notes manager')
       = Some (Note.mk "n2" (Some "f1") EmptyString "markdown"
                 (Note.trigger_conditions sample_note) true "second" []).
Proof.
  apply (update_note_route_stores_the_conditions sample_manager
           (saved sample_manager Written Written empty_disk) "n2" sample_pinned
           (Note.trigger_conditions sample_note)).
  - reflexivity.
  - reflexivity.
Defined.

(** X26.  A body of [PUT /autonotes/notes/{note_uuid}] with the key [self]
    or [note_uuid] collides with a parameter of [update_note]: the route
    answers with status 500 and writes nothing, for stored and unknown
    notes alike. *)
Theorem update_note_route_rejects_parameter_names :
  forall manager d note_uuid data w,
    AutoNotesManager_init d = (Ok manager, d) ->
    dict_contains "trigger_conditions" data = false ->
    dict_contains "self" data = true \/ dict_contains "note_uuid" data = true ->
    Routes.update_note note_uuid (JsonBody (PDict data)) w d = (Ok server_error, d).
Proof.
  intros manager d note_uuid data w Hinit Hnone Hclash.
  unfold Routes.update_note, route, io_try, io_bind, lift, ret. rewrite Hinit.
  cbn [py_contains]. rewrite Hnone. cbn [as_kwargs].
  destruct Hclash as [-> | ->]; [reflexivity|].
  now rewrite orb_true_r.
Qed.

Lemma update_note_route_rejects_parameter_names_witness :
  Routes.update_note "n1" (JsonBody (PDict [("note_uuid", PStr "n2")])) Written
    (saved sample_manager Written Written empty_disk)
  = (Ok server_error, saved sample_manager Written Written empty_disk).
Proof.
  apply (update_note_route_rejects_parameter_names sample_manager).
  - reflexivity.
  - reflexivity.
  - right. reflexivity.
Defined.

(* ================================================================= *)
(** ** What a loaded note holds *)

Lemma as_strs_inversion : forall items l,
  as_strs items = Ok l -> items = map PStr l.
Proof.
  induction items as [|item items IH]; simpl; intros l H.
  - inversion H. reflexivity.
  - destruct item; simpl in H; try discriminate.
    destruct (as_strs items) as [l'| |]; simpl in H; try discriminate.
    inversion H. simpl. now rewrite (IH l').
Qed.

Lemma dict_setitem_keys_incl : forall A k (v : A) (d : dict A) k',
  In k' (dict_keys d) -> In k' (dict_keys (dict_setitem k v d)).
Proof.
  induction d as [|[k0 v0] d IH]; simpl; intros k' H; [contradiction|].
  destruct (String.eqb_spec k0 k) as [->|Hne]; simpl.
  - exact H.
  - destruct H; [now left | right; auto].
Qed.

Lemma str_in_list_In : forall x xs, str_in_list x xs = true -> In x xs.
Proof.
  intros x xs H. unfold str_in_list in H. apply existsb_exists in H.
  destruct H as [y [Hy Heq]]. apply String.eqb_eq in Heq. now subst.
Qed.

Lemma required_keyword : forall (fields : dict pyval) name,
  name <> "trigger_conditions" ->
  dict_contains name (dict_setitem "trigger_conditions" PNone fields) = true ->
  exists v, dict_get name fields = Some v.
Proof.
  intros fields name Hne H. unfold dict_contains in H.
  rewrite dict_get_setitem_other in H by exact Hne.
  destruct (dict_get name fields) as [v|]; [now exists v | discriminate].
Qed.

Lemma keyword_as_str_inversion : forall (fields : dict pyval) key default s,
  keyword fields key as_str default = Ok s ->
  dict_get key fields = Some (PStr s) \/ (dict_get key fields = None /\ s = default).
Proof.
  intros fields key default s. unfold keyword.
  destruct (dict_get key fields) as [v|].
  - destruct v; simpl; try discriminate. intros H. inversion H. now left.
  - intros H. inversion H. now right.
Qed.

Lemma keyword_as_opt_str_inversion : forall (fields : dict pyval) key o,
  keyword fields key as_opt_str None = Ok o ->
  dict_get key fields = Some (json_opt_str o) \/ (dict_get key fields = None /\ o = None).
Proof.
  intros fields key o. unfold keyword.
  destruct (dict_get key fields) as [v|].
  - destruct v; simpl; try discriminate; intros H; inversion H; now left.
  - intros H. inversion H. now right.
Qed.

Lemma keyword_as_bool_inversion : forall (fields : dict pyval) key default b,
  keyword fields key as_bool default = Ok b ->
  dict_get key fields = Some (PBool b) \/ (dict_get key fields = None /\ b = default).
Proof.
  intros fields key default b. unfold keyword.
  destruct (dict_get key fields) as [v|].
  - destruct v; simpl; try discriminate. intros H. inversion H. now left.
  - intros H. inversion H. now right.
Qed.

Lemma keyword_as_tags_inversion : forall (fields : dict pyval) key l,
  keyword fields key as_tags [] = Ok l ->
  dict_get key fields = Some (json_str_list l)
  \/ ((dict_get key fields = None \/ dict_get key fields = Some PNone) /\ l = []).
Proof.
  intros fields key l. unfold keyword.
  destruct (dict_get key fields) as [v|].
  - destruct v; simpl; try discriminate.
    + intros H. inversion H. right. split; [now right | reflexivity].
    + intros H. apply as_strs_inversion in H. subst. now left.
  - intros H. inversion H. right. split; [now left | reflexivity].
Qed.

(** X27.  A record that [_load_notes] accepts gives the note its [uuid],
    [folder_uuid], [content] and [format_style]; [pinned], [name] and
    [tags] are taken from the record when it has them and are [False], the
    empty string and the empty list when it does not ([tags] also when the
    record holds [null]); a record without [trigger_conditions] gives a
    note without conditions; and the record has no key besides the eight
    fields. *)
Theorem loaded_note_reads_the_record :
  forall fields note,
    load_note (PDict fields) = Ok note ->
    dict_get "uuid" fields = Some (PStr (Note.uuid note))
    /\ dict_get "folder_uuid" fields = Some (json_opt_str (Note.folder_uuid note))
    /\ dict_get "content" fields = Some (PStr (Note.content note))
    /\ dict_get "format_style" fields = Some (PStr (Note.format_style note))
    /\ (dict_get "pinned" fields = Some (PBool (Note.pinned note))
        \/ (dict_get "pinned" fields = None /\ Note.pinned note = false))
    /\ (dict_get "name" fields = Some (PStr (Note.name note))
        \/ (dict_get "name" fields = None /\ Note.name note = EmptyString))
    /\ (dict_get "tags" fields = Some (json_str_list (Note.tags note))
        \/ ((dict_get "tags" fields = None \/ dict_get "tags" fields = Some PNone)
            /\ Note.tags note = []))
    /\ (dict_get "trigger_conditions" fields = None -> Note.trigger_conditions note = [])
    /\ Forall (fun key => In key Note_fields) (dict_keys fields).
Proof.
  intros fields note. unfold load_note.
  destruct (py_iter _) as [items| |] eqn:Hiter; simpl; try discriminate.
  destruct (load_conditions items) as [conditions| |] eqn:Hconds; simpl; try discriminate.
  unfold new_Note.
  destruct (accepts_kwargs _ _ _) eqn:Haccepts; [|discriminate].
  unfold accepts_kwargs in Haccepts. apply andb_true_iff in Haccepts.
  destruct Haccepts as [Hknown Hrequired]. simpl in Hrequired.
  apply andb_true_iff in Hrequired. destruct Hrequired as [Hr1 Hrequired].
  apply andb_true_iff in Hrequired. destruct Hrequired as [Hr2 Hrequired].
  apply andb_true_iff in Hrequired. destruct Hrequired as [Hr3 Hrequired].
  apply andb_true_iff in Hrequired. destruct Hrequired as [Hr4 _].
  apply required_keyword in Hr1; [|discriminate]. destruct Hr1 as [v1 Hr1].
  apply required_keyword in Hr2; [|discriminate]. destruct Hr2 as [v2 Hr2].
  apply required_keyword in Hr3; [|discriminate]. destruct Hr3 as [v3 Hr3].
  apply required_keyword in Hr4; [|discriminate]. destruct Hr4 as [v4 Hr4].
  destruct (keyword fields "uuid" as_str EmptyString) as [uuid| |] eqn:Huuid;
    simpl; try discriminate.
  destruct (keyword fields "folder_uuid" as_opt_str None) as [folder_uuid| |] eqn:Hfolder;
    simpl; try discriminate.
  destruct (keyword fields "content" as_str EmptyString) as [content| |] eqn:Hcontent;
    simpl; try discriminate.
  destruct (keyword fields "format_style" as_str EmptyString) as [format_style| |]
    eqn:Hstyle; simpl; try discriminate.
  destruct (keyword fields "pinned" as_bool false) as [pinned| |] eqn:Hpinned;
    simpl; try discriminate.
  destruct (keyword fields "name" as_str EmptyString) as [name| |] eqn:Hname;
    simpl; try discriminate.
  destruct (keyword fields "tags" as_tags []) as [tags| |] eqn:Htags;
    simpl; try discriminate.
  intros H. inversion H; subst note; clear H. simpl.
  apply keyword_as_str_inversion in Huuid, Hcontent, Hstyle, Hname.
  apply keyword_as_opt_str_inversion in Hfolder.
  apply keyword_as_bool_inversion in Hpinned.
  apply keyword_as_tags_inversion in Htags.
  destruct Huuid as [Huuid | [Huuid _]]; [|congruence].
  destruct Hfolder as [Hfolder | [Hfolder _]]; [|congruence].
  destruct Hcontent as [Hcontent | [Hcontent _]]; [|congruence].
  destruct Hstyle as [Hstyle | [Hstyle _]]; [|congruence].
  split; [exact Huuid|]. split; [exact Hfolder|]. split; [exact Hcontent|].
  split; [exact Hstyle|]. split; [exact Hpinned|]. split; [exact Hname|].
  split; [exact Htags|]. split.
  - intros Hnone. rewrite Hnone in Hiter. simpl in Hiter. inversion Hiter; subst.
    simpl in Hconds. now inversion Hconds.
  - change (Forall (fun key => In key Note_fields) (dict_keys fields)).
    apply Forall_forall. intros key Hkey.
    rewrite forallb_forall in Hknown. apply (str_in_list_In key Note_fields).
    apply Hknown. now apply dict_setitem_keys_incl.
Qed.

Lemma loaded_note_reads_the_record_witness :
  dict_get "uuid" [("uuid", PStr "n5"); ("folder_uuid", PNone); ("content", PStr "text");
                   ("format_style", PStr "markdown")]
  = Some (PStr "n5")
  /\ Note.pinned (Note.mk "n5" None "text" "markdown" [] false EmptyString []) = false.
Proof.
  destruct (loaded_note_reads_the_record
              [("uuid", PStr "n5"); ("folder_uuid", PNone); ("content", PStr "text");
               ("format_style", PStr "markdown")]
              (Note.mk "n5" None "text" "markdown" [] false EmptyString []) eq_refl)
    as [Huuid [_ [_ [_ [Hpinned _]]]]].
  split; [exact Huuid|].
  destruct Hpinned as [Hgiven | [_ Hdefault]]; [discriminate Hgiven | exact Hdefault].
Defined.

(* ================================================================= *)
(** ** Deleting a note twice *)

(** X28.  [DELETE /autonotes/notes/{note_uuid}] answers with [success]
    telling whether the note was stored.  Once its write went through, the
    same request again answers [success] false and leaves the disk as it
    is. *)
Theorem delete_note_route_twice :
  forall manager d note_uuid w,
    AutoNotesManager_init d = (Ok manager, d) ->
    exists d',
      Routes.delete_note note_uuid Written d
      = (Ok (json_ok (PDict [("success",
                              PBool (dict_contains note_uuid
                                       (AutoNotesManager.notes manager)))])),
         d')
      /\ Routes.delete_note note_uuid w d'
         = (Ok (json_ok (PDict [("success", PBool false)])), d').
Proof.
  intros [notes folders] d note_uuid w Hinit.
  destruct (init_inversion _ _ _ Hinit) as [_ [Hn [Hf [Hkn Hkf]]]]. simpl in *.
  unfold Routes.delete_note, route, io_try, io_bind, ret. rewrite Hinit.
  unfold delete_note at 1. cbn [AutoNotesManager.notes AutoNotesManager.folders].
  destruct (dict_contains note_uuid notes) eqn:Hhas.
  - set (self' := AutoNotesManager.mk (dict_delitem note_uuid notes) folders).
    assert (Hk : keyed_by Note.uuid (AutoNotesManager.notes self'))
      by now apply dict_delitem_keyed.
    exists (snd (_save_notes self' Written d)). split; [reflexivity|].
    rewrite reload_after_save_notes;
      [|apply keyed_values_NoDup; exact Hk | exact Hf].
    rewrite rekey_keyed by exact Hk.
    unfold delete_note. cbn [AutoNotesManager.notes self'].
    rewrite dict_delitem_removes by apply Hkn. reflexivity.
  - exists d. split; [reflexivity|]. rewrite Hinit.
    unfold delete_note. cbn [AutoNotesManager.notes]. rewrite Hhas. reflexivity.
Qed.

Lemma delete_note_route_twice_witness :
  exists d',
    Routes.delete_note "n1" Written (saved sample_manager Written Written empty_disk)
    = (Ok (json_ok (PDict [("success", PBool true)])), d')
    /\ Routes.delete_note "n1" Written d'
       = (Ok (json_ok (PDict [("success", PBool false)])), d').
Proof.
  apply (delete_note_route_twice sample_manager
           (saved sample_manager Written Written empty_disk) "n1" Written).
  reflexivity.
Defined.
